(** * ai-emotion-detector: a model of [app.js] and its probing loop

    The program is a command-line client: it reads a bearer token, checks it
    against an identity endpoint, then sends sentences to a list of remote
    sentiment models until one answers, and prints the classification.

    The model below follows [src/app.js] function by function.  JavaScript
    strings are byte strings holding the UTF-8 encoding of the text; numbers
    are IEEE 754 binary64 values ([spec_float] at precision 53); decoded
    response bodies are JSON trees.  Console output, HTTP requests, the
    ten-second pause and the prompts are events of one trace, in the order
    the program performs them. *)

From Stdlib Require Import String Ascii List ZArith NArith Lia Bool Arith.
From Stdlib Require Import Floats.SpecFloat.
From Stdlib Require Import DecimalString.
Import ListNotations.
Open Scope string_scope.

(* ===================================================================== *)
(** ** Strings: the methods of [String.prototype] the program calls *)
(* ===================================================================== *)

Module JsString.

(** The text after the first [n] bytes. *)
Fixpoint drop (n : nat) (s : string) : string :=
  match n, s with
  | O, _ => s
  | S _, EmptyString => EmptyString
  | S n', String _ s' => drop n' s'
  end.

(** [s.includes(pat)]: [pat] occurs somewhere in [s]. *)
Fixpoint includes (s pat : string) : bool :=
  prefix pat s ||
  match s with
  | EmptyString => false
  | String _ s' => includes s' pat
  end.

(** [s.replace(pat, repl)] with a string pattern: only the first occurrence
    is replaced ([repl] holds no [$] pattern at the call sites). *)
Fixpoint replace (s pat repl : string) : string :=
  if prefix pat s then repl ++ drop (String.length pat) s
  else match s with
       | EmptyString => EmptyString
       | String c s' => String c (replace s' pat repl)
       end.

(** [s.toLowerCase()].  Only the letters A to Z are mapped; the bytes of a
    character outside ASCII stay as they are.  The program compares the result
    with ['quit'] and ['exit'] only, and no character outside ASCII has one of
    the letters of these words as its lower case. *)
Definition lowerAscii (c : ascii) : ascii :=
  let n := nat_of_ascii c in
  if (Nat.leb 65 n && Nat.leb n 90)%bool then ascii_of_nat (n + 32) else c.

Fixpoint toLowerCase (s : string) : string :=
  match s with
  | EmptyString => EmptyString
  | String c s' => String (lowerAscii c) (toLowerCase s')
  end.

(** The white space and line terminator characters of ECMAScript (the set
    [trim] removes), each as its UTF-8 bytes. *)
Definition bytes (l : list nat) : string :=
  string_of_list_ascii (map ascii_of_nat l).

Definition whiteSpace : list string :=
  [ bytes [9]; bytes [10]; bytes [11]; bytes [12]; bytes [13]; bytes [32];
    bytes [194; 160];            (* U+00A0 *)
    bytes [225; 154; 128];       (* U+1680 *)
    bytes [226; 128; 128]; bytes [226; 128; 129]; bytes [226; 128; 130];
    bytes [226; 128; 131]; bytes [226; 128; 132]; bytes [226; 128; 133];
    bytes [226; 128; 134]; bytes [226; 128; 135]; bytes [226; 128; 136];
    bytes [226; 128; 137]; bytes [226; 128; 138];   (* U+2000 .. U+200A *)
    bytes [226; 128; 168]; bytes [226; 128; 169];   (* U+2028, U+2029 *)
    bytes [226; 128; 175];       (* U+202F *)
    bytes [226; 129; 159];       (* U+205F *)
    bytes [227; 128; 128];       (* U+3000 *)
    bytes [239; 187; 191] ].     (* U+FEFF *)

(** The rest of [s] after one leading white space character, if it has one. *)
Definition stripOne (s : string) : option string :=
  match find (fun t => prefix t s) whiteSpace with
  | Some t => Some (drop (String.length t) s)
  | None => None
  end.

(** [trimStart]: white space characters are removed while one leads.  Each
    round removes at least one byte, so [length s] rounds are enough. *)
Fixpoint trimStartN (rounds : nat) (s : string) : string :=
  match rounds with
  | O => s
  | S r => match stripOne s with
           | Some s' => trimStartN r s'
           | None => s
           end
  end.

Definition trimStart (s : string) : string := trimStartN (String.length s) s.

Fixpoint rev (s : string) : string :=
  match s with
  | EmptyString => EmptyString
  | String c s' => rev s' ++ String c EmptyString
  end.

Definition stripOneEnd (r : string) : option string :=
  match find (fun t => prefix (rev t) r) whiteSpace with
  | Some t => Some (drop (String.length t) r)
  | None => None
  end.

Fixpoint trimEndN (rounds : nat) (r : string) : string :=
  match rounds with
  | O => r
  | S n => match stripOneEnd r with
           | Some r' => trimEndN n r'
           | None => r
           end
  end.

Definition trimEnd (s : string) : string :=
  rev (trimEndN (String.length s) (rev s)).

(** [s.trim()] *)
Definition trim (s : string) : string := trimEnd (trimStart s).

(** Decimal digits of a natural number (no sign, no leading zero). *)
Definition ofN (n : N) : string := NilZero.string_of_uint (N.to_uint n).

Fixpoint repeat (s : string) (n : nat) : string :=
  match n with
  | O => EmptyString
  | S n' => s ++ repeat s n'
  end.

(** [l.join(sep)] on strings. *)
Fixpoint join (sep : string) (l : list string) : string :=
  match l with
  | [] => EmptyString
  | [x] => x
  | x :: rest => x ++ sep ++ join sep rest
  end.

End JsString.

(* ===================================================================== *)
(** ** Numbers: IEEE 754 binary64 and the conversions the program triggers *)
(* ===================================================================== *)

Module JsNumber.

Definition prec : Z := 53.
Definition emax : Z := 1024.

(** A JavaScript number.  The values that arise are canonical: a finite
    mantissa has 53 bits, or the exponent is the least one. *)
Definition double : Type := spec_float.

Definition NaN : double := S754_nan.
Definition posZero : double := S754_zero false.

(** [x * y] *)
Definition mul (x y : double) : double := SFmul prec emax x y.

(** The number nearest to [p / q]; ties go to the even mantissa. *)
Definition roundQ (neg : bool) (p q : positive) : double :=
  SFdiv prec emax (S754_finite neg p 0) (S754_finite false q 0).

(** The number nearest to the integer [n]. *)
Definition ofN (neg : bool) (n : N) : double :=
  match n with
  | N0 => S754_zero neg
  | Npos p => binary_round prec emax neg p 0
  end.

(** The number nearest to [d * 10 ^ e10]. *)
Definition ofDecimal (neg : bool) (d : N) (e10 : Z) : double :=
  match d with
  | N0 => S754_zero neg
  | Npos p =>
      match e10 with
      | Zneg e => roundQ neg p (10 ^ e)
      | _ => roundQ neg (p * Z.to_pos (10 ^ e10)) 1
      end
  end.

(** A positive finite number [m * 2 ^ e] as a fraction. *)
Definition fraction (m : positive) (e : Z) : positive * positive :=
  match e with
  | Zneg k => (m, 2 ^ k)%positive
  | _ => ((m * Z.to_pos (2 ^ e))%positive, 1%positive)
  end.

Definition sameDouble (x y : double) : bool :=
  match x, y with
  | S754_finite s m e, S754_finite s' m' e' =>
      Bool.eqb s s' && Pos.eqb m m' && Z.eqb e e'
  | S754_zero s, S754_zero s' => Bool.eqb s s'
  | S754_infinity s, S754_infinity s' => Bool.eqb s s'
  | S754_nan, S754_nan => true
  | _, _ => false
  end.

(** *** [Number.prototype.toFixed] *)

(** The digits of [n] with a point before the last [f] of them. *)
Definition fixedDigits (f : nat) (n : N) : string :=
  let m := JsString.ofN n in
  match f with
  | O => m
  | _ =>
      let k := String.length m in
      let m := if Nat.leb k f then JsString.repeat "0" (f + 1 - k) ++ m else m in
      let k := String.length m in
      substring 0 (k - f) m ++ "." ++ substring (k - f) f m
  end.

(** The integer [n] for which [n / 10 ^ f] is nearest to [p / q]; of two
    such integers the larger. *)
Definition nearestScaled (f : nat) (p q : positive) : N :=
  ((2 * Npos p * 10 ^ N.of_nat f + Npos q) / (2 * Npos q))%N.

(** *** [Number::toString]: the shortest digits that read back as the number *)

(** The [n] with [10 ^ (n - 1) <= p / q < 10 ^ n]. *)
Definition decimalExponent (p q : positive) : Z :=
  if (q <=? p)%positive
  then Z.of_nat (String.length (JsString.ofN (Npos p / Npos q)))
  else (1 - Z.of_nat (String.length (JsString.ofN ((Npos q - 1) / Npos p))))%Z.

(** [p / q * 10 ^ t] as a fraction. *)
Definition scale10 (p q : positive) (t : Z) : positive * positive :=
  match t with
  | Zneg k => (p, q * 10 ^ k)%positive
  | _ => ((p * Z.to_pos (10 ^ t))%positive, q)
  end.

(** With [k] digits: the candidates are the two [k]-digit decimals around the
    number; one is kept when it reads back as [x], the nearer of two. *)
Definition digitsAt (x : double) (p q : positive) (n0 : Z) (k : nat)
  : option (string * Z) :=
  let t := (Z.of_nat k - n0)%Z in
  let '(P, Q) := scale10 p q t in
  let lo := (Npos P / Npos Q)%N in
  let hi := (lo + 1)%N in
  let reads (c : N) := sameDouble (ofDecimal false c (- t)) x in
  let result (c : N) :=
    if (c =? 10 ^ N.of_nat k)%N
    then Some (JsString.ofN (c / 10), (n0 + 1)%Z)
    else Some (JsString.ofN c, n0) in
  match reads lo, reads hi with
  | true, true =>
      match (2 * Npos P ?= (2 * lo + 1) * Npos Q)%N with
      | Lt => result lo
      | Gt => result hi
      | Eq => if N.even lo then result lo else result hi
      end
  | true, false => result lo
  | false, true => result hi
  | false, false => None
  end.

(** The least number of digits is tried first, up to seventeen (enough to
    tell any two binary64 values apart); should none read back, the
    seventeen digits below the number are kept. *)
Fixpoint shortestFrom (x : double) (p q : positive) (n0 : Z) (k more : nat)
  : string * Z :=
  match digitsAt x p q n0 k with
  | Some r => r
  | None =>
      match more with
      | O => (JsString.ofN (Npos (fst (scale10 p q (Z.of_nat k - n0)))
                            / Npos (snd (scale10 p q (Z.of_nat k - n0)))), n0)
      | S more' => shortestFrom x p q n0 (S k) more'
      end
  end.

Definition layout (ds : string) (n : Z) : string :=
  let k := Z.of_nat (String.length ds) in
  if ((k <=? n) && (n <=? 21))%Z then
    ds ++ JsString.repeat "0" (Z.to_nat (n - k))
  else if ((0 <? n) && (n <=? 21))%Z then
    substring 0 (Z.to_nat n) ds ++ "." ++ JsString.drop (Z.to_nat n) ds
  else if ((-6 <? n) && (n <=? 0))%Z then
    "0." ++ JsString.repeat "0" (Z.to_nat (- n)) ++ ds
  else
    let e := (n - 1)%Z in
    let tail := "e" ++ (if (e <? 0)%Z then "-" else "+") ++ JsString.ofN (Z.abs_N e) in
    if (k =? 1)%Z then ds ++ tail
    else substring 0 1 ds ++ "." ++ JsString.drop 1 ds ++ tail.

Definition toStringPos (m : positive) (e : Z) : string :=
  let '(p, q) := fraction m e in
  let n0 := decimalExponent p q in
  let '(ds, n) := shortestFrom (S754_finite false m e) p q n0 1 16 in
  layout ds n.

(** [String(x)] for a number [x] *)
Definition toString (x : double) : string :=
  match x with
  | S754_nan => "NaN"
  | S754_zero _ => "0"
  | S754_infinity false => "Infinity"
  | S754_infinity true => "-Infinity"
  | S754_finite s m e => (if s then "-" else EmptyString) ++ toStringPos m e
  end.

(** [x.toFixed(f)] for [0 <= f <= 100] *)
Definition toFixed (x : double) (f : nat) : string :=
  match x with
  | S754_nan => "NaN"
  | S754_infinity false => "Infinity"
  | S754_infinity true => "-Infinity"
  | S754_zero _ => fixedDigits f 0
  | S754_finite s m e =>
      let sign := if s then "-" else EmptyString in
      let '(p, q) := fraction m e in
      if (10 ^ 21 * Npos q <=? Npos p)%N
      then sign ++ toStringPos m e
      else sign ++ fixedDigits f (nearestScaled f p q)
  end.

(** *** [StringToNumber]: the value of a string used as a number *)

Definition digitValue (base : N) (c : ascii) : option N :=
  let n := N_of_ascii c in
  let v := if ((48 <=? n) && (n <=? 57))%N then Some (n - 48)%N
           else if ((97 <=? n) && (n <=? 102))%N then Some (n - 87)%N
           else if ((65 <=? n) && (n <=? 70))%N then Some (n - 55)%N
           else None in
  match v with
  | Some d => if (d <? base)%N then Some d else None
  | None => None
  end.

(** The leading digits of [s]: their value after [acc], their count, the rest. *)
Fixpoint spanDigits (base acc : N) (count : nat) (s : string) : N * nat * string :=
  match s with
  | String c s' =>
      match digitValue base c with
      | Some d => spanDigits base (acc * base + d) (S count) s'
      | None => (acc, count, s)
      end
  | EmptyString => (acc, count, s)
  end.

Definition takeSign (s : string) : bool * string :=
  match s with
  | String "-" s' => (true, s')
  | String "+" s' => (false, s')
  | _ => (false, s)
  end.

Definition exponentPart (s : string) : option Z :=
  match s with
  | EmptyString => Some 0%Z
  | String c s' =>
      if (Ascii.eqb c "e" || Ascii.eqb c "E")%bool then
        let '(neg, s1) := takeSign s' in
        let '(v, n, rest) := spanDigits 10 0 0 s1 in
        if (Nat.ltb 0 n && String.eqb rest EmptyString)%bool
        then Some (if neg then (- Z.of_N v)%Z else Z.of_N v)
        else None
      else None
  end.

Definition decimalLiteral (s : string) : option double :=
  let '(neg, s1) := takeSign s in
  if String.eqb s1 "Infinity" then Some (S754_infinity neg) else
  let '(ip, ni, s2) := spanDigits 10 0 0 s1 in
  let '(mant, nf, s3) :=
    match s2 with
    | String "." s2' => spanDigits 10 ip 0 s2'
    | _ => (ip, O, s2)
    end in
  if Nat.eqb (ni + nf) 0 then None else
  match exponentPart s3 with
  | Some e => Some (ofDecimal neg mant (e - Z.of_nat nf))
  | None => None
  end.

Definition radixLiteral (s : string) : option double :=
  match s with
  | String "0" (String c rest) =>
      let base :=
        if (Ascii.eqb c "x" || Ascii.eqb c "X")%bool then Some 16%N
        else if (Ascii.eqb c "o" || Ascii.eqb c "O")%bool then Some 8%N
        else if (Ascii.eqb c "b" || Ascii.eqb c "B")%bool then Some 2%N
        else None in
      match base with
      | Some b =>
          let '(v, n, r) := spanDigits b 0 0 rest in
          if (Nat.ltb 0 n && String.eqb r EmptyString)%bool
          then Some (ofN false v) else None
      | None => None
      end
  | _ => None
  end.

(** [Number(s)] for a string [s] *)
Definition ofString (s : string) : double :=
  let t := JsString.trim s in
  if String.eqb t EmptyString then posZero else
  match radixLiteral t with
  | Some d => d
  | None =>
      match decimalLiteral t with
      | Some d => d
      | None => NaN
      end
  end.

End JsNumber.

(* ===================================================================== *)
(** ** JSON: decoded response bodies *)
(* ===================================================================== *)

Module Json.

#[local] Set Warnings "-register-all".

(** What [JSON.parse] builds.  An object is the list of its own properties
    in enumeration order, each key once. *)
Inductive value : Type :=
| Null
| Bool (b : bool)
| Num (d : JsNumber.double)
| Str (s : string)
| Arr (items : list value)
| Obj (props : list (string * value)).

Definition nl : string := String (ascii_of_nat 10) EmptyString.
Definition quote : string := String (ascii_of_nat 34) EmptyString.
Definition backslash : string := String (ascii_of_nat 92) EmptyString.

Definition hexDigit (n : nat) : string :=
  String (ascii_of_nat (if Nat.ltb n 10 then 48 + n else 87 + n)) EmptyString.

(** One byte of a string inside a JSON string literal. *)
Definition escape (c : ascii) : string :=
  let n := nat_of_ascii c in
  if Nat.eqb n 8 then backslash ++ "b"
  else if Nat.eqb n 9 then backslash ++ "t"
  else if Nat.eqb n 10 then backslash ++ "n"
  else if Nat.eqb n 12 then backslash ++ "f"
  else if Nat.eqb n 13 then backslash ++ "r"
  else if Nat.eqb n 34 then backslash ++ quote
  else if Nat.eqb n 92 then backslash ++ backslash
  else if Nat.ltb n 32 then
    backslash ++ "u00" ++ hexDigit (n / 16) ++ hexDigit (n mod 16)
  else String c EmptyString.

Fixpoint escapeAll (s : string) : string :=
  match s with
  | EmptyString => EmptyString
  | String c s' => escape c ++ escapeAll s'
  end.

Definition quoteJSONString (s : string) : string :=
  quote ++ escapeAll s ++ quote.

Definition finite (d : JsNumber.double) : bool :=
  match d with
  | S754_zero _ | S754_finite _ _ _ => true
  | _ => false
  end.

(** [JSON.stringify(v, null, gap)], at the indentation [indent]; [gap] is
    empty when the call gives no third argument. *)
Fixpoint serialize (gap indent : string) (v : value) : string :=
  let inner := indent ++ gap in
  let wrap (opening closing : string) (parts : list string) : string :=
    match parts with
    | [] => opening ++ closing
    | _ =>
        if String.eqb gap EmptyString
        then opening ++ JsString.join "," parts ++ closing
        else opening ++ nl ++ inner
             ++ JsString.join ("," ++ nl ++ inner) parts
             ++ nl ++ indent ++ closing
    end in
  match v with
  | Null => "null"
  | Bool true => "true"
  | Bool false => "false"
  | Num d => if finite d then JsNumber.toString d else "null"
  | Str s => quoteJSONString s
  | Arr items => wrap "[" "]" (map (serialize gap inner) items)
  | Obj props =>
      wrap "{" "}"
        (map (fun kv =>
                quoteJSONString (fst kv)
                ++ (if String.eqb gap EmptyString then ":" else ": ")
                ++ serialize gap inner (snd kv))
             props)
  end.

(** [JSON.stringify(v)] *)
Definition stringify (v : value) : string := serialize EmptyString EmptyString v.

(** [JSON.stringify(v, null, 2)] *)
Definition stringify2 (v : value) : string := serialize "  " EmptyString v.

(** [String(v)], as a template literal converts an interpolated value. *)
Fixpoint toString (v : value) : string :=
  match v with
  | Null => "null"
  | Bool true => "true"
  | Bool false => "false"
  | Num d => JsNumber.toString d
  | Str s => s
  | Arr items =>
      JsString.join ","
        (map (fun e => match e with
                       | Null => EmptyString
                       | _ => toString e
                       end) items)
  | Obj _ => "[object Object]"
  end.

(** A property read gives a value or [undefined] ([None]). *)
Definition toStringU (v : option value) : string :=
  match v with
  | Some v => toString v
  | None => "undefined"
  end.

(** [Number(v)], as [*] converts an operand. *)
Definition toNumber (v : option value) : JsNumber.double :=
  match v with
  | None => JsNumber.NaN
  | Some Null => JsNumber.posZero
  | Some (Bool true) => JsNumber.ofN false 1
  | Some (Bool false) => JsNumber.posZero
  | Some (Num d) => d
  | Some (Str s) => JsNumber.ofString s
  | Some v => JsNumber.ofString (toString v)
  end.

(** The own property [key] of an object. *)
Fixpoint lookup (key : string) (props : list (string * value)) : option value :=
  match props with
  | [] => None
  | (k, v) :: rest => if String.eqb k key then Some v else lookup key rest
  end.

End Json.

(* ===================================================================== *)
(** ** Effects: what a run does and how it ends *)
(* ===================================================================== *)

(** A thrown value.  The only exceptions the program can meet outside its
    [try] blocks are the engine's [TypeError]s. *)
Inductive JsError : Type :=
| TypeError (message : string).

(** How an [axios] call settles: fulfilled on a 2xx status with the decoded
    body, otherwise rejected with an error that has a message and, when the
    server answered, the response's status and decoded body. *)
Inductive AxiosOutcome : Type :=
| Fulfilled (data : Json.value)
| Rejected (response : option (N * Json.value)) (message : string).

(** What a run does, in order.  A request is recorded with its address, its
    [Authorization] header and, for a POST, the [inputs] of its body; the
    content type and the 30 s timeout are the same for every POST. *)
Inductive Event : Type :=
| Stdout (line : string)                    (* console.log *)
| Stderr (line : string)                    (* console.error of a string *)
| HttpPost (url authorization inputs : string)   (* axios.post *)
| HttpGet (url authorization : string)      (* axios.get *)
| Sleep (ms : N)                            (* the awaited setTimeout *)
| Question (prompt : string)                (* readline.question *)
| ErrorReport (e : JsError).                (* console.error of an error *)

(** What surrounds a run: the token of the environment (unset, or a string)
    and the network, which settles the [k]-th request of the run. *)
Record Env : Type := {
  TOKEN : option string;
  network : nat -> AxiosOutcome
}.

Inductive Outcome (A : Type) : Type :=
| Returned (a : A)
| Threw (e : JsError)
| AwaitingInput.      (* the recorded input lines ran out at a prompt *)

Arguments Returned {A} a.
Arguments Threw {A} e.
Arguments AwaitingInput {A}.

(** The result of running a piece of the program from a point where
    [requests] requests have been issued. *)
Record Run (A : Type) : Type := {
  outcome : Outcome A;
  requests : nat;
  events : list Event
}.

Arguments outcome {A} r.
Arguments requests {A} r.
Arguments events {A} r.

Definition M (A : Type) : Type := Env -> nat -> Run A.

Definition ret {A} (a : A) : M A :=
  fun _ n => {| outcome := Returned a; requests := n; events := [] |}.

Definition throw {A} (e : JsError) : M A :=
  fun _ n => {| outcome := Threw e; requests := n; events := [] |}.

Definition bind {A B} (m : M A) (f : A -> M B) : M B :=
  fun env n =>
    let r := m env n in
    match outcome r with
    | Returned a =>
        let r' := f a env (requests r) in
        {| outcome := outcome r'; requests := requests r';
           events := events r ++ events r' |}
    | Threw e => {| outcome := Threw e; requests := requests r; events := events r |}
    | AwaitingInput =>
        {| outcome := AwaitingInput; requests := requests r; events := events r |}
    end.

Declare Scope js_scope.
Delimit Scope js_scope with js.
Notation "x <- m ;; k" := (bind m (fun x => k))
  (at level 100, m at next level, right associativity) : js_scope.
Notation "m ;; k" := (bind m (fun _ => k))
  (at level 100, right associativity) : js_scope.
Open Scope js_scope.

Definition emit (e : Event) : M unit :=
  fun _ n => {| outcome := Returned tt; requests := n; events := [e] |}.

Definition log (line : string) : M unit := emit (Stdout line).
Definition logError (line : string) : M unit := emit (Stderr line).
Definition sleep (ms : N) : M unit := emit (Sleep ms).

Definition getToken : M (option string) :=
  fun env n => {| outcome := Returned (TOKEN env); requests := n; events := [] |}.

(** A request is recorded, and the network settles it. *)
Definition request (e : Event) : M AxiosOutcome :=
  fun env n =>
    {| outcome := Returned (network env n); requests := S n; events := [e] |}.

(** [.catch(handler)] on the promise of [m] *)
Definition onReject (m : M unit) (handler : JsError -> M unit) : M unit :=
  fun env n =>
    let r := m env n in
    match outcome r with
    | Threw e =>
        let r' := handler e env (requests r) in
        {| outcome := outcome r'; requests := requests r';
           events := events r ++ events r' |}
    | _ => r
    end.

(** [l.forEach(f)] *)
Fixpoint forEach {A} (f : A -> M unit) (l : list A) : M unit :=
  match l with
  | [] => ret tt
  | x :: rest => f x ;; forEach f rest
  end.

(** The token as a template literal and [console.log] render it: a string as
    it is, [undefined] by its name (output goes to a stream without colours). *)
Definition tokenText (t : option string) : string :=
  match t with
  | Some s => s
  | None => "undefined"
  end.

(** A token is truthy ([!t] is false) exactly when it is a non-empty string. *)
Definition truthy (t : option string) : bool :=
  match t with
  | Some s => negb (String.eqb s EmptyString)
  | None => false
  end.

(* ===================================================================== *)
(** ** The program, [src/app.js] *)
(* ===================================================================== *)

Definition MODELS : list string :=
  [ "cardiffnlp/twitter-roberta-base-sentiment-latest";
    "distilbert-base-uncased-finetuned-sst-2-english";
    "cardiffnlp/twitter-roberta-base-sentiment";
    "nlptown/bert-base-multilingual-uncased-sentiment" ].

(** The object [testModel] returns. *)
Inductive AttemptResult : Type :=
| Success (data : Json.value) (model : string)
| Failure (error : string) (model : string).

Definition API_URL (modelName : string) : string :=
  "https://api-inference.huggingface.co/models/" ++ modelName.

Definition authorization (t : option string) : string :=
  "Bearer " ++ tokenText t.

(** The text [testModel] stores for a rejected request. *)
Definition describe (response : option (N * Json.value)) (message : string) : string :=
  match response with
  | Some (status, data) => JsString.ofN status ++ ": " ++ Json.stringify data
  | None => message
  end.

Definition testModel (modelName text : string) : M AttemptResult :=
  token <- getToken ;;
  response <- request (HttpPost (API_URL modelName) (authorization token) text) ;;
  match response with
  | Fulfilled data => ret (Success data modelName)
  | Rejected response message => ret (Failure (describe response message) modelName)
  end.

(** [v.key] for the keys the program reads ([label], [score], [name]): an
    own property of an object; [undefined] on every other value but [null],
    where the read throws (the callers test for [null] first). *)
Definition property (v : Json.value) (key : string) : option Json.value :=
  match v with
  | Json.Obj props => Json.lookup key props
  | _ => None
  end.

(** The line for one element of a classification, lines 63 and 64. *)
Definition formatItem (item : Json.value) : M string :=
  match item with
  | Json.Null => throw (TypeError "Cannot read properties of null (reading 'label')")
  | _ =>
      match property item "label" with
      | Some (Json.Str l) =>
          let label := JsString.replace (JsString.replace l "LABEL_" EmptyString) "_" " " in
          let score := Json.toNumber (property item "score") in
          ret (" - " ++ label ++ ": "
               ++ JsNumber.toFixed (JsNumber.mul score (JsNumber.ofN false 100)) 2 ++ "%")
      | None => throw (TypeError "Cannot read properties of undefined (reading 'replace')")
      | Some Json.Null => throw (TypeError "Cannot read properties of null (reading 'replace')")
      | Some _ => throw (TypeError "item.label.replace is not a function")
      end
  end.

Definition printItem (item : Json.value) : M unit :=
  line <- formatItem item ;;
  log line.

(** Lines 57 to 72: the result of a first attempt. *)
Definition printResult (data : Json.value) : M unit :=
  match data with
  | Json.Arr (first :: _) =>
      match first with
      | Json.Arr items => forEach printItem items
      | _ => log (" - Result: " ++ Json.stringify2 first)
      end
  | _ => log (" - Raw response: " ++ Json.stringify2 data)
  end.

(** Lines 87 to 95: the result of a retry. *)
Definition printRetryResult (data : Json.value) : M unit :=
  match data with
  | Json.Arr (first :: _) =>
      match first with
      | Json.Arr items => forEach printItem items
      | _ => ret tt
      end
  | _ => ret tt
  end.

(** The loop of [analyzeSentiment] over the models still to try, with the
    statement after the loop. *)
Fixpoint tryModels (models : list string) (text : string) : M unit :=
  match models with
  | [] =>
      logError "❌ All models failed. Please check your internet connection and API token."
  | model :: rest =>
      log ("🔍 Trying model: " ++ model) ;;
      result <- testModel model text ;;
      match result with
      | Success data _ =>
          log ("✅ Success with model: " ++ model) ;;
          log (Json.nl ++ "📊 Sentiment Result for: " ++ Json.quote ++ text ++ Json.quote) ;;
          printResult data
      | Failure error _ =>
          log ("❌ Failed with " ++ model ++ ": " ++ error) ;;
          if JsString.includes error "503" then
            log "⏳ Model is loading, waiting 10 seconds..." ;;
            sleep 10000 ;;
            retryResult <- testModel model text ;;
            match retryResult with
            | Success data _ =>
                log ("✅ Success with model after retry: " ++ model) ;;
                log (Json.nl ++ "📊 Sentiment Result for: " ++ Json.quote ++ text ++ Json.quote) ;;
                printRetryResult data
            | Failure _ _ => tryModels rest text
            end
          else tryModels rest text
      end
  end.

Definition analyzeSentiment (text : string) : M unit :=
  log "🔄 Analyzing sentiment..." ;;
  tryModels MODELS text.

(** The [catch] block of [validateToken]. *)
Definition validationFailed (response : option (N * Json.value)) (message : string) : M bool :=
  logError "❌ Token validation failed:" ;;
  match response with
  | Some (status, data) =>
      logError ("Status: " ++ JsString.ofN status) ;;
      logError ("Data: " ++ Json.stringify data)
  | None => logError ("Error: " ++ message)
  end ;;
  log "⚠️ Proceeding anyway to test the inference API directly..." ;;
  ret true.

Definition validateToken : M bool :=
  token <- getToken ;;
  response <- request (HttpGet "https://huggingface.co/api/whoami" (authorization token)) ;;
  match response with
  | Fulfilled Json.Null =>
      validationFailed None "Cannot read properties of null (reading 'name')"
  | Fulfilled data =>
      log ("✅ Token valid for user: " ++ Json.toStringU (property data "name")) ;;
      ret true
  | Rejected response message => validationFailed response message
  end.

Definition PROMPT : string :=
  Json.nl ++ "🗣️ Enter a sentence to analyze sentiment (or 'quit' to exit): ".

(** The [while (true)] loop of [main], over the lines the user will type. *)
Fixpoint promptLoop (stdin : list string) : M unit :=
  match stdin with
  | [] =>
      emit (Question PROMPT) ;;
      (fun _ n => {| outcome := AwaitingInput; requests := n; events := [] |})
  | input :: rest =>
      emit (Question PROMPT) ;;
      if (String.eqb (JsString.toLowerCase input) "quit"
          || String.eqb (JsString.toLowerCase input) "exit")%bool
      then log "👋 Goodbye!"
      else if String.eqb (JsString.trim input) EmptyString
      then log "⚠️ Please enter a valid sentence." ;; promptLoop rest
      else analyzeSentiment input ;; promptLoop rest
  end.

Definition main (stdin : list string) : M unit :=
  log "🤖 AI Sentiment Analysis Tool" ;;
  log "===============================" ;;
  token <- getToken ;;
  if negb (truthy token) then
    logError "❌ Error: HUGGINGFACE_TOKEN not found in .env file" ;;
    log "Please add your Hugging Face token to the .env file:" ;;
    log "HUGGINGFACE_TOKEN=your_token_here"
  else
    log "🔐 Validating API token..." ;;
    isValidToken <- validateToken ;;
    if negb isValidToken then ret tt
    else
      log "🧪 Testing API with a simple sentence..." ;;
      analyzeSentiment "I love this!" ;;
      promptLoop stdin.

(** The module's top level from line 13 on: the token is read and printed,
    then [main] runs with [console.error] as its rejection handler. *)
Definition program (stdin : list string) : M unit :=
  token <- getToken ;;
  log ("token: " ++ " " ++ tokenText token) ;;
  onReject (main stdin) (fun e => emit (ErrorReport e)).

(* ===================================================================== *)
(** ** Vocabulary of the statements *)
(* ===================================================================== *)

(** An event that is a line of [console.log]. *)
Definition isStdout (e : Event) : Prop := exists line, e = Stdout line.

(** An event that is a prompt shown to the user. *)
Definition isQuestion (e : Event) : Prop := exists prompt, e = Question prompt.

(** A line made of white space characters only (none, one or several). *)
Inductive WhiteSpaceOnly : string -> Prop :=
| ws_empty : WhiteSpaceOnly EmptyString
| ws_more (t s : string) :
    In t JsString.whiteSpace -> WhiteSpaceOnly s -> WhiteSpaceOnly (t ++ s).

(** The lines of standard output among the events of a run. *)
Fixpoint stdoutOf (evs : list Event) : list string :=
  match evs with
  | [] => []
  | Stdout line :: rest => line :: stdoutOf rest
  | _ :: rest => stdoutOf rest
  end.

(** The payload of the formatter example, [[{label: "LABEL_POSITIVE",
    score: 0.987}]], with the score as [JSON.parse] reads it. *)
Definition positivePayload : Json.value :=
  Json.Arr [ Json.Arr [ Json.Obj [ ("label", Json.Str "LABEL_POSITIVE");
                                   ("score", Json.Num (JsNumber.ofDecimal false 987 (-3))) ] ] ].

(** The payload of the fallback example, {unexpected: "shape"}. *)
Definition unexpectedPayload : Json.value :=
  Json.Obj [ ("unexpected", Json.Str "shape") ].

(** A server error that is not a 503 but mentions the number in its body. *)
Definition mentions503 : AxiosOutcome :=
  Rejected (Some (500%N, Json.Obj [ ("error", Json.Str "upstream returned 503") ]))
           "Request failed with status code 500".

(** What [testModel] returns for a settled request. *)
Definition attemptResult (settled : AxiosOutcome) (model : string) : AttemptResult :=
  match settled with
  | Fulfilled data => Success data model
  | Rejected response message => Failure (describe response message) model
  end.

(** An object {label, score} of a classification. *)
Definition entryObject (entry : string * JsNumber.double) : Json.value :=
  Json.Obj [ ("label", Json.Str (fst entry)); ("score", Json.Num (snd entry)) ].

(** The line lines 63 and 64 print for such an object. *)
Definition entryLine (entry : string * JsNumber.double) : string :=
  " - "
  ++ JsString.replace (JsString.replace (fst entry) "LABEL_" EmptyString) "_" " "
  ++ ": "
  ++ JsNumber.toFixed (JsNumber.mul (snd entry) (JsNumber.ofN false 100)) 2
  ++ "%".

(** A network where the first request meets a 500 that mentions 503 and every
    later request is fulfilled with a classification. *)
Definition env500then200 : Env :=
  {| TOKEN := Some "hf_token";
     network := fun k => match k with
                         | O => mentions503
                         | _ => Fulfilled positivePayload
                         end |}.

(** A network where every request meets a 500 that mentions 503. *)
Definition envAll500 : Env :=
  {| TOKEN := Some "hf_token"; network := fun _ => mentions503 |}.

(** A network where the first model is loading (503) and then answers with
    a body of an unexpected shape. *)
Definition env503thenUnexpected : Env :=
  {| TOKEN := Some "hf_token";
     network := fun k =>
       match k with
       | O => Rejected (Some (503%N, Json.Obj [ ("error", Json.Str "Model is currently loading") ]))
                       "Request failed with status code 503"
       | _ => Fulfilled unexpectedPayload
       end |}.

(** A network where every request is fulfilled with [data]. *)
Definition envFulfilled (data : Json.value) : Env :=
  {| TOKEN := Some "hf_token"; network := fun _ => Fulfilled data |}.

(** Every model of the list fails from request [n] on: [AllFail env n models
    n' k] when the loop ends at request [n'] after [k] of the models had a
    first rejection described with "503" (and a rejected retry). *)
Inductive AllFail (env : Env) : nat -> list string -> nat -> nat -> Prop :=
| allFail_done n : AllFail env n [] n 0
| allFail_next n model rest response message n' k :
    network env n = Rejected response message ->
    JsString.includes (describe response message) "503" = false ->
    AllFail env (S n) rest n' k ->
    AllFail env n (model :: rest) n' k
| allFail_retry n model rest response message response' message' n' k :
    network env n = Rejected response message ->
    JsString.includes (describe response message) "503" = true ->
    network env (S n) = Rejected response' message' ->
    AllFail env (S (S n)) rest n' k ->
    AllFail env n (model :: rest) n' (S k).

Definition EXHAUSTED : string :=
  "❌ All models failed. Please check your internet connection and API token.".

(** The address of the identity check. *)
Definition WHOAMI : string := "https://huggingface.co/api/whoami".

(** The addresses of the POST requests among the events of a run, in order. *)
Fixpoint postUrls (evs : list Event) : list string :=
  match evs with
  | [] => []
  | HttpPost url _ _ :: rest => url :: postUrls rest
  | _ :: rest => postUrls rest
  end.

(** The pauses among the events of a run. *)
Fixpoint sleepsOf (evs : list Event) : list N :=
  match evs with
  | [] => []
  | Sleep ms :: rest => ms :: sleepsOf rest
  | _ :: rest => sleepsOf rest
  end.

(** What the probing loop over [models] may do: print a line, report the
    exhaustion, pause ten seconds, or POST [text] with the token to one of
    the models. *)
Definition probeEvent (env : Env) (text : string) (models : list string) (e : Event) : Prop :=
  isStdout e
  \/ e = Stderr EXHAUSTED
  \/ e = Sleep 10000
  \/ exists model, In model models
       /\ e = HttpPost (API_URL model) (authorization (TOKEN env)) text.

(** What a whole run may send: the identity check and POSTs to the four
    models, each with the token of the environment. *)
Definition sentToHuggingFace (env : Env) (e : Event) : Prop :=
  match e with
  | HttpPost url auth _ =>
      In url (map API_URL MODELS) /\ auth = authorization (TOKEN env)
  | HttpGet url auth => url = WHOAMI /\ auth = authorization (TOKEN env)
  | _ => True
  end.

(** The addresses contacted when the [i]-th model of the list is sent
    [reps_i] requests, for the models that [reps] covers. *)
Definition attemptsOf (models : list string) (reps : list nat) : list string :=
  flat_map (fun p => List.repeat (API_URL (fst p)) (snd p)) (combine models reps).

(** The label of an element of a classification, when it is a string. *)
Definition stringLabel (item : Json.value) : option string :=
  match property item "label" with
  | Some (Json.Str l) => Some l
  | _ => None
  end.

(** The line lines 63 and 64 build from a label and what [item.score] reads. *)
Definition itemLine (l : string) (score : option Json.value) : string :=
  " - "
  ++ JsString.replace (JsString.replace l "LABEL_" EmptyString) "_" " "
  ++ ": "
  ++ JsNumber.toFixed (JsNumber.mul (Json.toNumber score) (JsNumber.ofN false 100)) 2
  ++ "%".


(** The test of line 151: the line is [quit] or [exit] in any case. *)
Definition isCommand (input : string) : bool :=
  (String.eqb (JsString.toLowerCase input) "quit"
   || String.eqb (JsString.toLowerCase input) "exit")%bool.

(* ===================================================================== *)
(** ** The runtime model on known values *)
(* ===================================================================== *)

Example includes_finds_503 : JsString.includes "500: upstream 503" "503" = true.
Proof. reflexivity. Qed.

Example includes_misses_503 :
  JsString.includes "timeout of 30000ms exceeded" "503" = false.
Proof. reflexivity. Qed.

Example replace_first_only :
  JsString.replace (JsString.replace "LABEL_VERY_GOOD_ONE" "LABEL_" EmptyString) "_" " "
  = "VERY GOOD_ONE".
Proof. reflexivity. Qed.

Example trim_mixed :
  JsString.trim (" " ++ JsString.bytes [9; 194; 160] ++ "a b" ++ JsString.bytes [227; 128; 128; 10])
  = "a b".
Proof. reflexivity. Qed.

Example lower_quit : JsString.toLowerCase "QuIt" = "quit".
Proof. reflexivity. Qed.

Example parse_0_987 :
  JsNumber.ofString "0.987" = JsNumber.ofDecimal false 987 (-3)
  /\ JsNumber.ofDecimal false 987 (-3) = S754_finite false 8890105664429359 (-53).
Proof. split; vm_compute; reflexivity. Qed.

Example times_100 :
  JsNumber.mul (JsNumber.ofDecimal false 987 (-3)) (JsNumber.ofN false 100)
  = S754_finite false 6945395050335437 (-46).
Proof. vm_compute. reflexivity. Qed.

Example toFixed_known :
  map (fun x => JsNumber.toFixed x 2)
      [ JsNumber.ofDecimal false 1005 (-3); JsNumber.ofDecimal false 5 (-3);
        JsNumber.ofDecimal true 1 (-3); JsNumber.ofDecimal false 1 21;
        JsNumber.NaN; JsNumber.posZero ]
  = [ "1.00"; "0.01"; "-0.00"; "1e+21"; "NaN"; "0.00" ].
Proof. vm_compute. reflexivity. Qed.

Example toString_known :
  map JsNumber.toString
      [ JsNumber.ofDecimal false 1 21; JsNumber.ofDecimal false 1 20;
        JsNumber.ofDecimal false 1 (-6); JsNumber.ofDecimal false 1 (-7);
        JsNumber.ofDecimal false 5 (-324); JsNumber.ofDecimal false 17976931348623157 292;
        JsNumber.ofDecimal true 205 (-1);
        JsNumber.mul (JsNumber.ofDecimal false 1 (-1)) (JsNumber.ofN false 3);
        JsNumber.ofDecimal false 9007199254740993 0; JsNumber.ofDecimal false 20503 (-3) ]
  = [ "1e+21"; "100000000000000000000"; "0.000001"; "1e-7"; "5e-324";
      "1.7976931348623157e+308"; "-20.5"; "0.30000000000000004";
      "9007199254740992"; "20.503" ].
Proof. vm_compute. reflexivity. Qed.

Example ofString_known :
  map (fun s => JsNumber.toString (JsNumber.ofString s))
      [ " 12 "; EmptyString; "0x1F"; "-Infinity"; "1e3"; ".5"; "5."; ".";
        "12px"; "[object Object]" ]
  = [ "12"; "0"; "31"; "-Infinity"; "1000"; "0.5"; "5"; "NaN"; "NaN"; "NaN" ].
Proof. vm_compute. reflexivity. Qed.

Example stringify_known :
  Json.stringify (Json.Obj [ ("error", Json.Str "loading");
                             ("estimated_time", Json.Num (JsNumber.ofDecimal false 205 (-1)));
                             ("tags", Json.Arr [ Json.Null; Json.Bool true; Json.Arr [] ]) ])
  = "{" ++ Json.quote ++ "error" ++ Json.quote ++ ":" ++ Json.quote ++ "loading" ++ Json.quote
    ++ "," ++ Json.quote ++ "estimated_time" ++ Json.quote ++ ":20.5"
    ++ "," ++ Json.quote ++ "tags" ++ Json.quote ++ ":[null,true,[]]}".
Proof. vm_compute. reflexivity. Qed.

Example stringify2_known :
  Json.stringify2 (Json.Arr [ Json.Num (JsNumber.ofN false 1); Json.Obj [ ("a", Json.Arr []) ] ])
  = "[" ++ Json.nl ++ "  1," ++ Json.nl ++ "  {" ++ Json.nl
    ++ "    " ++ Json.quote ++ "a" ++ Json.quote ++ ": []" ++ Json.nl
    ++ "  }" ++ Json.nl ++ "]".
Proof. vm_compute. reflexivity. Qed.

Example score_from_a_string :
  events (printResult (Json.Arr [ Json.Arr [ Json.Obj [ ("label", Json.Str "NEGATIVE");
                                                         ("score", Json.Str "0.25") ] ] ])
                      envAll500 0)
  = [ Stdout " - NEGATIVE: 25.00%" ].
Proof. vm_compute. reflexivity. Qed.

(* ===================================================================== *)
(** ** Strings *)
(* ===================================================================== *)

Lemma prefix_app (p s : string) : prefix p (p ++ s) = true.
Proof.
  induction p as [| c p IH]; simpl.
  - destruct s; reflexivity.
  - destruct (ascii_dec c c) as [_ | ne]; [exact IH | contradiction].
Qed.

Lemma includes_app (p s : string) : JsString.includes (p ++ s) p = true.
Proof.
  destruct p as [| c p]; simpl.
  - destruct s; reflexivity.
  - destruct (ascii_dec c c) as [_ | ne]; [| contradiction].
    rewrite prefix_app. reflexivity.
Qed.

Lemma prefix_split (t s : string) :
  prefix t s = true -> s = t ++ JsString.drop (String.length t) s.
Proof.
  revert s. induction t as [| a t IH]; intros s H.
  - reflexivity.
  - destruct s as [| b s]; [discriminate H |].
    cbn in H. destruct (ascii_dec a b) as [-> | _]; [| discriminate H].
    cbn. f_equal. apply IH. exact H.
Qed.

Lemma length_append (s t : string) :
  String.length (s ++ t) = String.length s + String.length t.
Proof. induction s as [| c s IH]; cbn; [reflexivity | rewrite IH; reflexivity]. Qed.

Lemma length_rev (s : string) : String.length (JsString.rev s) = String.length s.
Proof.
  induction s as [| c s IH]; [reflexivity |].
  cbn. rewrite length_append, IH. cbn. lia.
Qed.

Lemma whiteSpace_nonempty (t : string) :
  In t JsString.whiteSpace -> 1 <= String.length t.
Proof.
  unfold JsString.whiteSpace. intros H. cbn [In] in H.
  repeat (destruct H as [H | H]; [subst t; cbn; lia |]).
  contradiction.
Qed.

(** Each round of [trimStart] removes at least one byte. *)
Lemma stripOne_shorter (s s' : string) :
  JsString.stripOne s = Some s' -> String.length s' < String.length s.
Proof.
  unfold JsString.stripOne.
  destruct (find (fun t => prefix t s) JsString.whiteSpace) as [t |] eqn:Hfind;
    [| discriminate].
  intros [= <-]. apply find_some in Hfind. destruct Hfind as [Hin Hpre].
  pose proof (whiteSpace_nonempty t Hin) as Hpos.
  rewrite (prefix_split t s Hpre) at 2. rewrite length_append. lia.
Qed.

Lemma stripOneEnd_shorter (r r' : string) :
  JsString.stripOneEnd r = Some r' -> String.length r' < String.length r.
Proof.
  unfold JsString.stripOneEnd.
  destruct (find (fun t => prefix (JsString.rev t) r) JsString.whiteSpace) as [t |] eqn:Hfind;
    [| discriminate].
  intros [= <-]. apply find_some in Hfind. destruct Hfind as [Hin Hpre].
  pose proof (whiteSpace_nonempty t Hin) as Hpos.
  rewrite (prefix_split _ r Hpre) at 2.
  rewrite length_append, !length_rev. lia.
Qed.

(** The rounds of [trimStart] and [trimEnd] suffice: no white space leads
    the one result, none ends the other. *)
Lemma trimStartN_enough (rounds : nat) (s : string) :
  String.length s <= rounds ->
  JsString.stripOne (JsString.trimStartN rounds s) = None.
Proof.
  revert s. induction rounds as [| rounds IH]; intros s Hlen.
  - destruct s; [reflexivity | cbn in Hlen; lia].
  - cbn [JsString.trimStartN].
    destruct (JsString.stripOne s) as [s' |] eqn:Hstrip; [| exact Hstrip].
    apply IH. apply stripOne_shorter in Hstrip. lia.
Qed.

Lemma trimEndN_enough (rounds : nat) (r : string) :
  String.length r <= rounds ->
  JsString.stripOneEnd (JsString.trimEndN rounds r) = None.
Proof.
  revert r. induction rounds as [| rounds IH]; intros r Hlen.
  - destruct r; [reflexivity | cbn in Hlen; lia].
  - cbn [JsString.trimEndN].
    destruct (JsString.stripOneEnd r) as [r' |] eqn:Hstrip; [| exact Hstrip].
    apply IH. apply stripOneEnd_shorter in Hstrip. lia.
Qed.

Lemma trimStart_complete (s : string) :
  JsString.stripOne (JsString.trimStart s) = None.
Proof. apply trimStartN_enough. apply le_n. Qed.

Lemma trimEnd_complete (s : string) :
  JsString.stripOneEnd (JsString.trimEndN (String.length s) (JsString.rev s)) = None.
Proof. apply trimEndN_enough. rewrite length_rev. apply le_n. Qed.

(** A 503 answer is always described by a text that holds "503". *)
Lemma describe_503 (body : Json.value) (message : string) :
  JsString.includes (describe (Some (503%N, body)) message) "503" = true.
Proof.
  unfold describe.
  change (JsString.ofN 503) with "503".
  apply includes_app.
Qed.

(* ===================================================================== *)
(** ** The formatter issues no request and writes to standard output only *)
(* ===================================================================== *)

Lemma formatItem_silent (item : Json.value) env n :
  events (formatItem item env n) = [] /\ requests (formatItem item env n) = n.
Proof.
  unfold formatItem.
  destruct item; try (split; reflexivity).
  destruct (property (Json.Obj props) "label") as [[ | | | | | ] | ];
    split; reflexivity.
Qed.

Lemma printItem_quiet (item : Json.value) env n :
  Forall isStdout (events (printItem item env n))
  /\ requests (printItem item env n) = n.
Proof.
  unfold printItem, bind.
  destruct (formatItem_silent item env n) as [Hev Hreq].
  destruct (outcome (formatItem item env n)) eqn:Hout; cbn [events requests];
    rewrite ?Hev, ?Hreq; cbn.
  - split; [| reflexivity]. repeat constructor. eexists; reflexivity.
  - split; [constructor | reflexivity].
  - split; [constructor | reflexivity].
Qed.

Lemma forEach_printItem_quiet (items : list Json.value) env n :
  Forall isStdout (events (forEach printItem items env n))
  /\ requests (forEach printItem items env n) = n.
Proof.
  revert n. induction items as [| item items IH]; intros n; cbn [forEach].
  - split; [constructor | reflexivity].
  - unfold bind.
    destruct (printItem_quiet item env n) as [Hev Hreq].
    destruct (outcome (printItem item env n)); cbn [events requests];
      try (split; assumption).
    rewrite Hreq. destruct (IH n) as [IHev IHreq].
    split; [apply Forall_app; split; assumption | assumption].
Qed.

Lemma log_quiet (line : string) env n :
  Forall isStdout (events (log line env n)) /\ requests (log line env n) = n.
Proof.
  split; [| reflexivity]. repeat constructor. eexists; reflexivity.
Qed.

Lemma printResult_quiet (data : Json.value) env n :
  Forall isStdout (events (printResult data env n))
  /\ requests (printResult data env n) = n.
Proof.
  unfold printResult.
  destruct data as [ | | | | [| first rest] | ]; try apply log_quiet.
  destruct first; try apply log_quiet.
  apply forEach_printItem_quiet.
Qed.

Lemma printRetryResult_quiet (data : Json.value) env n :
  Forall isStdout (events (printRetryResult data env n))
  /\ requests (printRetryResult data env n) = n.
Proof.
  unfold printRetryResult.
  destruct data as [ | | | | [| first rest] | ];
    try (split; [constructor | reflexivity]).
  destruct first; try (split; [constructor | reflexivity]).
  apply forEach_printItem_quiet.
Qed.

(* ===================================================================== *)
(** ** The probing loop *)
(* ===================================================================== *)

(** How the pieces of the monad run. *)

Lemma bind_emit {B} (e : Event) (f : unit -> M B) env n :
  bind (emit e) f env n =
    {| outcome := outcome (f tt env n);
       requests := requests (f tt env n);
       events := e :: events (f tt env n) |}.
Proof. reflexivity. Qed.

Lemma bind_log {B} (line : string) (f : unit -> M B) env n :
  bind (log line) f env n =
    {| outcome := outcome (f tt env n);
       requests := requests (f tt env n);
       events := Stdout line :: events (f tt env n) |}.
Proof. reflexivity. Qed.

Lemma bind_logError {B} (line : string) (f : unit -> M B) env n :
  bind (logError line) f env n =
    {| outcome := outcome (f tt env n);
       requests := requests (f tt env n);
       events := Stderr line :: events (f tt env n) |}.
Proof. reflexivity. Qed.

Lemma bind_sleep {B} (ms : N) (f : unit -> M B) env n :
  bind (sleep ms) f env n =
    {| outcome := outcome (f tt env n);
       requests := requests (f tt env n);
       events := Sleep ms :: events (f tt env n) |}.
Proof. reflexivity. Qed.

Lemma bind_getToken {B} (f : option string -> M B) env n :
  bind getToken f env n = f (TOKEN env) env n.
Proof. unfold bind, getToken; cbn. destruct (f (TOKEN env) env n); reflexivity. Qed.

Lemma bind_testModel {B} (model text : string) (f : AttemptResult -> M B) env n :
  bind (testModel model text) f env n =
    let k := f (attemptResult (network env n) model) env (S n) in
    {| outcome := outcome k;
       requests := requests k;
       events := HttpPost (API_URL model) (authorization (TOKEN env)) text :: events k |}.
Proof.
  unfold testModel, bind, getToken, request, attemptResult; cbn.
  destruct (network env n); reflexivity.
Qed.

Create Rewrite HintDb run.
#[local] Hint Rewrite @bind_emit @bind_log @bind_logError @bind_sleep
  @bind_getToken @bind_testModel : run.

(** One turn of the loop is entered; a request is settled as [H] says. *)
Ltac enter_loop := cbn [tryModels]; autorewrite with run; cbn zeta.
Ltac settle H := rewrite H; cbn [attemptResult]; autorewrite with run; cbn zeta.

Section Probing.

Variable env : Env.
Variable text : string.

(** C3.  When the request to the first model of a non-empty list is
    fulfilled, that request is the only one of the call: the success is
    reported for this model, its payload goes to the formatter of the first
    attempt, and the call ends as the formatter ends, whatever models
    follow in the list. *)
Theorem first_success_short_circuits n model rest data :
  network env n = Fulfilled data ->
  let r := printResult data env (S n) in
  tryModels (model :: rest) text env n =
    {| outcome := outcome r;
       requests := S n;
       events :=
         [ Stdout ("🔍 Trying model: " ++ model);
           HttpPost (API_URL model) (authorization (TOKEN env)) text;
           Stdout ("✅ Success with model: " ++ model);
           Stdout (Json.nl ++ "📊 Sentiment Result for: " ++ Json.quote ++ text ++ Json.quote) ]
         ++ events r |}
  /\ Forall isStdout (events r).
Proof.
  intros H r.
  destruct (printResult_quiet data env (S n)) as [Hev Hreq]. fold r in Hev, Hreq.
  split; [| exact Hev].
  enter_loop. settle H.
  cbn [outcome requests events app]. fold r. rewrite Hreq. reflexivity.
Qed.

(** C1.  When the first request to a model is rejected with status 503,
    the loop reports the failure, pauses ten seconds and sends exactly one
    more request to the same model.  If that retry is fulfilled, the success
    is reported and the call ends with the retry's formatter, with no further
    request; if it is rejected too, the loop goes on with the next models. *)
Theorem retry_once_after_503 n model rest body message :
  network env n = Rejected (Some (503%N, body)) message ->
  let attempt :=
    [ Stdout ("🔍 Trying model: " ++ model);
      HttpPost (API_URL model) (authorization (TOKEN env)) text;
      Stdout ("❌ Failed with " ++ model ++ ": " ++ describe (Some (503%N, body)) message);
      Stdout "⏳ Model is loading, waiting 10 seconds...";
      Sleep 10000;
      HttpPost (API_URL model) (authorization (TOKEN env)) text ] in
  match network env (S n) with
  | Fulfilled data =>
      let r := printRetryResult data env (S (S n)) in
      tryModels (model :: rest) text env n =
        {| outcome := outcome r;
           requests := S (S n);
           events :=
             attempt
             ++ [ Stdout ("✅ Success with model after retry: " ++ model);
                  Stdout (Json.nl ++ "📊 Sentiment Result for: " ++ Json.quote ++ text ++ Json.quote) ]
             ++ events r |}
      /\ Forall isStdout (events r)
  | Rejected _ _ =>
      let r := tryModels rest text env (S (S n)) in
      tryModels (model :: rest) text env n =
        {| outcome := outcome r;
           requests := requests r;
           events := attempt ++ events r |}
  end.
Proof.
  intros H attempt.
  enter_loop. settle H.
  rewrite describe_503. autorewrite with run. cbn zeta.
  destruct (network env (S n)) as [data | response' message'];
    cbn [attemptResult].
  - destruct (printRetryResult_quiet data env (S (S n))) as [Hev Hreq].
    split; [| exact Hev].
    autorewrite with run. cbn [outcome requests events app].
    rewrite Hreq. reflexivity.
  - cbn [outcome requests events app]. reflexivity.
Qed.

(** A rejection whose description does not hold "503" is not retried: the
    loop goes on with the next models after one request. *)
Lemma no_retry_without_503_text n model rest response message :
  network env n = Rejected response message ->
  JsString.includes (describe response message) "503" = false ->
  let r := tryModels rest text env (S n) in
  tryModels (model :: rest) text env n =
    {| outcome := outcome r;
       requests := requests r;
       events :=
         [ Stdout ("🔍 Trying model: " ++ model);
           HttpPost (API_URL model) (authorization (TOKEN env)) text;
           Stdout ("❌ Failed with " ++ model ++ ": " ++ describe response message) ]
         ++ events r |}.
Proof.
  intros H Hno r.
  enter_loop. settle H.
  rewrite Hno. cbn [outcome requests events app]. reflexivity.
Qed.

(** A rejection whose description holds "503" is retried, whatever its
    status: this is the test the loop makes. *)
Lemma retry_on_503_text n model rest response message :
  network env n = Rejected response message ->
  JsString.includes (describe response message) "503" = true ->
  exists tail : list Event,
    events (tryModels (model :: rest) text env n) =
      ([ Stdout ("🔍 Trying model: " ++ model);
         HttpPost (API_URL model) (authorization (TOKEN env)) text;
         Stdout ("❌ Failed with " ++ model ++ ": " ++ describe response message);
         Stdout "⏳ Model is loading, waiting 10 seconds...";
         Sleep 10000;
         HttpPost (API_URL model) (authorization (TOKEN env)) text ] ++ tail)%list.
Proof.
  intros H Hyes.
  enter_loop. settle H.
  rewrite Hyes. autorewrite with run. cbn zeta.
  cbn [outcome requests events app]. eexists. reflexivity.
Qed.

(** When every model fails, the call returns after the exhaustion message,
    and the requests it issued are one per model plus one per model whose
    first rejection was described with "503". *)
Lemma all_fail_exhausts n models n' k :
  AllFail env n models n' k ->
  let r := tryModels models text env n in
  outcome r = Returned tt
  /\ requests r = n'
  /\ n' = n + length models + k
  /\ exists before : list Event, events r = (before ++ [Stderr EXHAUSTED])%list.
Proof.
  induction 1 as [n | n model rest response message n' k Hnet Hno _ IH
                    | n model rest response message response' message' n' k
                        Hnet Hyes Hnet' _ IH]; intros r.
  - split; [| split; [| split]]; [reflexivity | reflexivity | cbn; lia |].
    exists []. reflexivity.
  - destruct IH as (Hout & Hreq & Hcount & before & Hev).
    subst r.
    rewrite (no_retry_without_503_text n model rest response message Hnet Hno).
    cbn [outcome requests events length].
    split; [| split; [| split]]; [assumption | assumption | lia |].
    rewrite Hev. eexists. rewrite app_assoc. reflexivity.
  - destruct IH as (Hout & Hreq & Hcount & before & Hev).
    subst r.
    enter_loop. settle Hnet.
    rewrite Hyes. autorewrite with run. cbn zeta.
    rewrite Hnet'. cbn [attemptResult outcome requests events length].
    split; [| split; [| split]]; [assumption | assumption | lia |].
    rewrite Hev. exists
      ([ Stdout ("🔍 Trying model: " ++ model);
         HttpPost (API_URL model) (authorization (TOKEN env)) text;
         Stdout ("❌ Failed with " ++ model ++ ": " ++ describe response message);
         Stdout "⏳ Model is loading, waiting 10 seconds...";
         Sleep 10000;
         HttpPost (API_URL model) (authorization (TOKEN env)) text ] ++ before)%list.
    reflexivity.
Qed.

End Probing.

(** C2.  A first rejection with status 500 whose body mentions 503 is
    retried: the loop pauses and sends a second request to the same model,
    and here prints the retry's classification. *)
Theorem status_500_is_retried :
  tryModels MODELS "I love this!" env500then200 0 =
    {| outcome := Returned tt;
       requests := 2;
       events :=
         [ Stdout "🔍 Trying model: cardiffnlp/twitter-roberta-base-sentiment-latest";
           HttpPost (API_URL "cardiffnlp/twitter-roberta-base-sentiment-latest")
                    "Bearer hf_token" "I love this!";
           Stdout ("❌ Failed with cardiffnlp/twitter-roberta-base-sentiment-latest: 500: {"
                   ++ Json.quote ++ "error" ++ Json.quote ++ ":"
                   ++ Json.quote ++ "upstream returned 503" ++ Json.quote ++ "}");
           Stdout "⏳ Model is loading, waiting 10 seconds...";
           Sleep 10000;
           HttpPost (API_URL "cardiffnlp/twitter-roberta-base-sentiment-latest")
                    "Bearer hf_token" "I love this!";
           Stdout "✅ Success with model after retry: cardiffnlp/twitter-roberta-base-sentiment-latest";
           Stdout (Json.nl ++ "📊 Sentiment Result for: " ++ Json.quote ++ "I love this!" ++ Json.quote);
           Stdout " - POSITIVE: 98.70%" ] |}.
Proof. vm_compute. reflexivity. Qed.

(** C4.  With four models that all answer 500 with a body that mentions
    503, the call ends with the exhaustion message after eight requests,
    although no first attempt had status 503. *)
Theorem exhaustion_after_eight_requests :
  let r := analyzeSentiment "I love this!" envAll500 0 in
  outcome r = Returned tt
  /\ last (events r) (Stdout EmptyString) = Stderr EXHAUSTED
  /\ requests r = 8
  /\ length MODELS = 4
  /\ forall k, exists body message,
       network envAll500 k = Rejected (Some (500%N, body)) message.
Proof.
  cbv zeta. split; [| split; [| split; [| split]]].
  - vm_compute. reflexivity.
  - vm_compute. reflexivity.
  - vm_compute. reflexivity.
  - reflexivity.
  - intros k. eexists. eexists. reflexivity.
Qed.

(** C5.  After a retry that is fulfilled with {unexpected: "shape"}, the
    call prints the heading and nothing of the payload, where the first
    attempt prints it as indented text; and a first attempt fulfilled with
    [[1]] ends in a [TypeError]. *)
Theorem retry_formatter_prints_nothing :
  tryModels MODELS "I love this!" env503thenUnexpected 0 =
    {| outcome := Returned tt;
       requests := 2;
       events :=
         [ Stdout "🔍 Trying model: cardiffnlp/twitter-roberta-base-sentiment-latest";
           HttpPost (API_URL "cardiffnlp/twitter-roberta-base-sentiment-latest")
                    "Bearer hf_token" "I love this!";
           Stdout ("❌ Failed with cardiffnlp/twitter-roberta-base-sentiment-latest: 503: {"
                   ++ Json.quote ++ "error" ++ Json.quote ++ ":"
                   ++ Json.quote ++ "Model is currently loading" ++ Json.quote ++ "}");
           Stdout "⏳ Model is loading, waiting 10 seconds...";
           Sleep 10000;
           HttpPost (API_URL "cardiffnlp/twitter-roberta-base-sentiment-latest")
                    "Bearer hf_token" "I love this!";
           Stdout "✅ Success with model after retry: cardiffnlp/twitter-roberta-base-sentiment-latest";
           Stdout (Json.nl ++ "📊 Sentiment Result for: " ++ Json.quote ++ "I love this!" ++ Json.quote) ] |}
  /\ events (printResult unexpectedPayload (envFulfilled unexpectedPayload) 1) =
       [ Stdout (" - Raw response: {" ++ Json.nl
                 ++ "  " ++ Json.quote ++ "unexpected" ++ Json.quote ++ ": "
                 ++ Json.quote ++ "shape" ++ Json.quote ++ Json.nl ++ "}") ]
  /\ outcome (tryModels MODELS "I love this!"
                (envFulfilled (Json.Arr [ Json.Arr [ Json.Num (JsNumber.ofN false 1) ] ])) 0)
     = Threw (TypeError "Cannot read properties of undefined (reading 'replace')").
Proof.
  split; [| split]; vm_compute; reflexivity.
Qed.

Lemma printItem_entry (entry : string * JsNumber.double) env n :
  printItem (entryObject entry) env n =
    {| outcome := Returned tt; requests := n; events := [Stdout (entryLine entry)] |}.
Proof. reflexivity. Qed.

Lemma forEach_entries (entries : list (string * JsNumber.double)) env n :
  forEach printItem (map entryObject entries) env n =
    {| outcome := Returned tt; requests := n;
       events := map (fun entry => Stdout (entryLine entry)) entries |}.
Proof.
  induction entries as [| entry entries IH]; cbn [map forEach].
  - reflexivity.
  - unfold bind. rewrite printItem_entry. cbn [outcome requests events].
    rewrite IH. reflexivity.
Qed.

(** C6.  For the payload [[{label: "LABEL_POSITIVE", score: 0.987}]] the
    formatter prints the one line " - POSITIVE: 98.70%", after a first
    attempt and after a retry alike; and for every list of {label, score}
    objects it prints one line per object, in the order of the list. *)
Theorem positive_payload_line env n :
  printResult positivePayload env n =
    {| outcome := Returned tt; requests := n; events := [Stdout " - POSITIVE: 98.70%"] |}
  /\ printRetryResult positivePayload env n =
    {| outcome := Returned tt; requests := n; events := [Stdout " - POSITIVE: 98.70%"] |}
  /\ forall entries : list (string * JsNumber.double),
       printResult (Json.Arr [ Json.Arr (map entryObject entries) ]) env n =
         {| outcome := Returned tt; requests := n;
            events := map (fun entry => Stdout (entryLine entry)) entries |}.
Proof.
  split; [| split].
  - vm_compute. reflexivity.
  - vm_compute. reflexivity.
  - intros entries. apply forEach_entries.
Qed.

(* ===================================================================== *)
(** ** The entry point *)
(* ===================================================================== *)

(** C7.  With the token unset or empty, the run prints the token line and
    the banner, reports the missing token with the two lines that tell how
    to set it, and returns: no request is issued and no prompt is shown,
    whatever input is waiting. *)
Theorem missing_token_stops env stdin n :
  TOKEN env = None \/ TOKEN env = Some EmptyString ->
  program stdin env n =
    {| outcome := Returned tt;
       requests := n;
       events :=
         [ Stdout ("token: " ++ " " ++ tokenText (TOKEN env));
           Stdout "🤖 AI Sentiment Analysis Tool";
           Stdout "===============================";
           Stderr "❌ Error: HUGGINGFACE_TOKEN not found in .env file";
           Stdout "Please add your Hugging Face token to the .env file:";
           Stdout "HUGGINGFACE_TOKEN=your_token_here" ] |}.
Proof.
  intros H.
  assert (Hfalsy : truthy (TOKEN env) = false)
    by (destruct H as [H | H]; rewrite H; reflexivity).
  unfold program. rewrite bind_getToken, bind_log.
  unfold onReject, main.
  rewrite bind_log, bind_log, bind_getToken, Hfalsy.
  reflexivity.
Qed.

Lemma stripOne_leading (t s : string) :
  In t JsString.whiteSpace -> JsString.stripOne (t ++ s) = Some s.
Proof.
  unfold JsString.whiteSpace. intros H. cbn [In] in H.
  repeat (destruct H as [H | H]; [subst t; destruct s; reflexivity |]).
  contradiction.
Qed.

(** The rounds given to [trimStart] are enough: a line of white space is
    trimmed to the empty string. *)
Lemma trimStartN_whiteSpace (s : string) :
  WhiteSpaceOnly s ->
  forall rounds, String.length s <= rounds -> JsString.trimStartN rounds s = EmptyString.
Proof.
  induction 1 as [| t s Ht Hs IH]; intros rounds Hlen.
  - destruct rounds; reflexivity.
  - pose proof (whiteSpace_nonempty t Ht) as Hpos.
    rewrite length_append in Hlen.
    destruct rounds as [| rounds]; [lia |].
    cbn [JsString.trimStartN]. rewrite (stripOne_leading t s Ht).
    apply IH. lia.
Qed.

Lemma trim_whiteSpace (s : string) :
  WhiteSpaceOnly s -> JsString.trim s = EmptyString.
Proof.
  intros H. unfold JsString.trim, JsString.trimStart.
  rewrite (trimStartN_whiteSpace s H _ (le_n _)). reflexivity.
Qed.

Lemma whiteSpace_not_a_command (s : string) :
  WhiteSpaceOnly s ->
  String.eqb (JsString.toLowerCase s) "quit" = false
  /\ String.eqb (JsString.toLowerCase s) "exit" = false.
Proof.
  destruct 1 as [| t s Ht _]; [split; reflexivity |].
  unfold JsString.whiteSpace in Ht. cbn [In] in Ht.
  repeat (destruct Ht as [Ht | Ht]; [subst t; split; reflexivity |]).
  contradiction.
Qed.

(** C8.  A line that is empty or made of white space only is answered with
    the reprompt message, and the loop goes on with the next line from the
    same request count: the step issues no request. *)
Theorem blank_line_reprompts env n line rest :
  WhiteSpaceOnly line ->
  let r := promptLoop rest env n in
  promptLoop (line :: rest) env n =
    {| outcome := outcome r;
       requests := requests r;
       events := Question PROMPT :: Stdout "⚠️ Please enter a valid sentence." :: events r |}.
Proof.
  intros H r.
  destruct (whiteSpace_not_a_command line H) as [Hquit Hexit].
  cbn [promptLoop]. rewrite bind_emit, Hquit, Hexit, (trim_whiteSpace line H).
  cbn [orb String.eqb]. rewrite bind_log. reflexivity.
Qed.

Lemma bind_run {A B} (m : M A) (f : A -> M B) env n :
  bind m f env n =
    match outcome (m env n) with
    | Returned a =>
        {| outcome := outcome (f a env (requests (m env n)));
           requests := requests (f a env (requests (m env n)));
           events := events (m env n) ++ events (f a env (requests (m env n))) |}
    | Threw e =>
        {| outcome := Threw e; requests := requests (m env n); events := events (m env n) |}
    | AwaitingInput =>
        {| outcome := AwaitingInput; requests := requests (m env n);
           events := events (m env n) |}
    end.
Proof. reflexivity. Qed.

Lemma stdout_not_question (e : Event) : isStdout e -> ~ isQuestion e.
Proof. intros [line ->] [prompt H]. discriminate H. Qed.

(** The token check is one request; it always returns [true], and what it
    prints is no prompt. *)
Lemma validateToken_run env n :
  exists printed : list Event,
    validateToken env n =
      {| outcome := Returned true;
         requests := S n;
         events := HttpGet "https://huggingface.co/api/whoami" (authorization (TOKEN env))
                   :: printed |}
    /\ Forall (fun e => ~ isQuestion e) printed.
Proof.
  unfold validateToken. rewrite bind_getToken.
  unfold bind, request. cbn [outcome requests events].
  assert (Hnq : forall e, (exists line, e = Stdout line \/ e = Stderr line) -> ~ isQuestion e).
  { intros e [line [-> | ->]] [prompt H]; discriminate H. }
  destruct (network env n) as [data | [[status body] |] message].
  - destruct data; eexists; (split; [reflexivity |]);
      repeat constructor; apply Hnq; eexists; eauto.
  - eexists; (split; [reflexivity |]).
    repeat constructor; apply Hnq; eexists; eauto.
  - eexists; (split; [reflexivity |]).
    repeat constructor; apply Hnq; eexists; eauto.
Qed.

Lemma tryModels_no_question (models : list string) (text : string) env n :
  Forall (fun e => ~ isQuestion e) (events (tryModels models text env n)).
Proof.
  assert (Hq : forall l, Forall isStdout l -> Forall (fun e => ~ isQuestion e) l).
  { intros l. apply Forall_impl. exact stdout_not_question. }
  assert (Hs : forall line, ~ isQuestion (Stdout line)).
  { intros line [prompt H]. discriminate H. }
  assert (Hp : forall u a t, ~ isQuestion (HttpPost u a t)).
  { intros u a t [prompt H]. discriminate H. }
  revert n. induction models as [| model rest IH]; intros n.
  - repeat constructor. intros [prompt H]. discriminate H.
  - enter_loop.
    destruct (network env n) as [data | response message]; cbn [attemptResult].
    + autorewrite with run. cbn [events].
      repeat (constructor; [auto |]).
      apply Hq, printResult_quiet.
    + autorewrite with run.
      destruct (JsString.includes (describe response message) "503").
      * autorewrite with run. cbn zeta.
        destruct (network env (S n)) as [data' | response' message'];
          cbn [attemptResult]; autorewrite with run; cbn [events].
        -- repeat (constructor; [first [apply Hs | apply Hp | intros [? H]; discriminate H] |]).
           apply Hq, printRetryResult_quiet.
        -- repeat (constructor; [first [apply Hs | apply Hp | intros [? H]; discriminate H] |]).
           apply IH.
      * cbn [events]. repeat (constructor; [auto |]). apply IH.
Qed.

(** What [main] does when the token is a non-empty string: the banner, the
    token check, the trial analysis of "I love this!", then the prompts. *)
Lemma main_with_token stdin env n :
  truthy (TOKEN env) = true ->
  exists printed : list Event,
    Forall (fun e => ~ isQuestion e) printed
    /\ main stdin env n =
         (let a := analyzeSentiment "I love this!" env (S n) in
          let k := match outcome a with
                   | Returned _ => promptLoop stdin env (requests a)
                   | Threw e => {| outcome := Threw e; requests := requests a; events := [] |}
                   | AwaitingInput =>
                       {| outcome := AwaitingInput; requests := requests a; events := [] |}
                   end in
          {| outcome := outcome k;
             requests := requests k;
             events :=
               [ Stdout "🤖 AI Sentiment Analysis Tool";
                 Stdout "===============================";
                 Stdout "🔐 Validating API token...";
                 HttpGet "https://huggingface.co/api/whoami" (authorization (TOKEN env)) ]
               ++ printed
               ++ [ Stdout "🧪 Testing API with a simple sentence..." ]
               ++ events a ++ events k |}).
Proof.
  intros Htoken.
  destruct (validateToken_run env n) as (printed & Hrun & Hnq).
  exists printed. split; [exact Hnq |].
  unfold main. rewrite bind_log, bind_log, bind_getToken, Htoken.
  cbn [negb]. rewrite bind_log, bind_run, Hrun.
  cbn [outcome requests events negb]. rewrite bind_log, bind_run.
  cbn [outcome requests events app].
  destruct (outcome (analyzeSentiment "I love this!" env (S n)));
    cbn [outcome requests events app];
    rewrite <- ?app_assoc, ?app_nil_r; reflexivity.
Qed.

Lemma program_events stdin env n :
  events (program stdin env n) =
    Stdout ("token: " ++ " " ++ tokenText (TOKEN env))
    :: events (main stdin env n)
    ++ match outcome (main stdin env n) with
       | Threw e => [ErrorReport e]
       | _ => []
       end.
Proof.
  unfold program. rewrite bind_getToken, bind_log. cbn [events].
  unfold onReject.
  destruct (outcome (main stdin env n)); cbn [events emit];
    rewrite ?app_nil_r; reflexivity.
Qed.

(** The first lines of standard output: the token, the banner, then either
    the start of the token check or the two lines on how to set the token. *)
Lemma program_stdout stdin env n :
  exists tail : list string,
    stdoutOf (events (program stdin env n)) =
      ("token: " ++ " " ++ tokenText (TOKEN env))
      :: "🤖 AI Sentiment Analysis Tool"
      :: "==============================="
      :: (if truthy (TOKEN env)
          then "🔐 Validating API token..." :: tail
          else [ "Please add your Hugging Face token to the .env file:";
                 "HUGGINGFACE_TOKEN=your_token_here" ]).
Proof.
  rewrite program_events.
  destruct (truthy (TOKEN env)) eqn:Htoken.
  - destruct (main_with_token stdin env n Htoken) as (printed & _ & Hmain).
    rewrite Hmain. cbv zeta. cbn [events outcome app stdoutOf].
    eexists. reflexivity.
  - exists []. unfold main.
    rewrite bind_log, bind_log, bind_getToken, Htoken. reflexivity.
Qed.

(** C9.  The first event of every run is the line "token:  " followed by
    the token as it is (by [undefined] when unset), before the banner and
    any check; and two runs that differ in the token only differ in what
    they write to standard output. *)
Theorem token_line_reveals_token net stdin n t1 t2 :
  t1 <> t2 ->
  let run t := program stdin {| TOKEN := t; network := net |} n in
  (forall t, exists rest : list Event,
      events (run t) = Stdout ("token: " ++ " " ++ tokenText t) :: rest)
  /\ stdoutOf (events (run t1)) <> stdoutOf (events (run t2)).
Proof.
  intros Hne run. split.
  - intros t. unfold run. rewrite program_events. eexists. reflexivity.
  - unfold run.
    destruct (program_stdout stdin {| TOKEN := t1; network := net |} n) as [tail1 H1].
    destruct (program_stdout stdin {| TOKEN := t2; network := net |} n) as [tail2 H2].
    rewrite H1, H2. cbn [TOKEN]. intros Heq.
    injection Heq as Htext Hrest.
    destruct t1 as [a |], t2 as [b |]; cbn [tokenText] in Htext.
    + subst b. apply Hne. reflexivity.
    + subst a. cbn in Hrest. discriminate Hrest.
    + subst b. cbn in Hrest. discriminate Hrest.
    + apply Hne. reflexivity.
Qed.

(** C10.  With a non-empty token, the run holds the whole trial analysis
    of "I love this!", which starts with a request to the first model, and
    no prompt is shown before or during it: the requests happen whether or
    not the user ever types a line. *)
Theorem trial_analysis_precedes_prompts env stdin n t :
  TOKEN env = Some t ->
  t <> EmptyString ->
  let a := analyzeSentiment "I love this!" env (S n) in
  exists before after : list Event,
    events (program stdin env n) = (before ++ events a ++ after)%list
    /\ Forall (fun e => ~ isQuestion e) (before ++ events a)
    /\ exists rest : list Event,
         events a =
           Stdout "🔄 Analyzing sentiment..."
           :: Stdout "🔍 Trying model: cardiffnlp/twitter-roberta-base-sentiment-latest"
           :: HttpPost (API_URL "cardiffnlp/twitter-roberta-base-sentiment-latest")
                       ("Bearer " ++ t) "I love this!"
           :: rest.
Proof.
  intros Htoken Hne a.
  assert (Htruthy : truthy (TOKEN env) = true).
  { rewrite Htoken. cbn. apply Bool.negb_true_iff, String.eqb_neq. exact Hne. }
  destruct (main_with_token stdin env n Htruthy) as (printed & Hnq & Hmain).
  cbv zeta in Hmain. fold a in Hmain.
  set (k := match outcome a with
            | Returned _ => promptLoop stdin env (requests a)
            | Threw e => {| outcome := Threw e; requests := requests a; events := [] |}
            | AwaitingInput =>
                {| outcome := AwaitingInput; requests := requests a; events := [] |}
            end) in Hmain.
  exists ([ Stdout ("token: " ++ " " ++ tokenText (TOKEN env));
            Stdout "🤖 AI Sentiment Analysis Tool";
            Stdout "===============================";
            Stdout "🔐 Validating API token...";
            HttpGet "https://huggingface.co/api/whoami" (authorization (TOKEN env)) ]
          ++ printed ++ [ Stdout "🧪 Testing API with a simple sentence..." ])%list.
  exists (events k ++ match outcome k with
                      | Threw e => [ErrorReport e]
                      | _ => []
                      end)%list.
  split; [| split].
  - rewrite program_events, Hmain. cbn [events outcome].
    repeat (rewrite <- app_assoc || rewrite <- app_comm_cons). reflexivity.
  - assert (Hs : forall line, ~ isQuestion (Stdout line)).
    { intros line [prompt H]. discriminate H. }
    apply Forall_app. split.
    + cbn [app]. repeat (constructor; [first [apply Hs | intros [? H]; discriminate H] |]).
      apply Forall_app. split; [exact Hnq |]. repeat constructor. apply Hs.
    + unfold a, analyzeSentiment. rewrite bind_log. cbn [events].
      constructor; [apply Hs | apply tryModels_no_question].
  - unfold a, analyzeSentiment, MODELS. rewrite bind_log.
    enter_loop. cbn [events].
    rewrite Htoken. eexists. reflexivity.
Qed.

(* ===================================================================== *)
(** ** The hypotheses hold on concrete runs *)
(* ===================================================================== *)

(** A first model that is loading, then answers. *)
Lemma retry_once_after_503_witness :
  network env503thenUnexpected 0 =
    Rejected (Some (503%N, Json.Obj [ ("error", Json.Str "Model is currently loading") ]))
             "Request failed with status code 503"
  /\ requests (tryModels MODELS "I love this!" env503thenUnexpected 0) = 2.
Proof.
  split; [reflexivity |].
  destruct (retry_once_after_503 env503thenUnexpected "I love this!" 0
              "cardiffnlp/twitter-roberta-base-sentiment-latest"
              [ "distilbert-base-uncased-finetuned-sst-2-english";
                "cardiffnlp/twitter-roberta-base-sentiment";
                "nlptown/bert-base-multilingual-uncased-sentiment" ]
              (Json.Obj [ ("error", Json.Str "Model is currently loading") ])
              "Request failed with status code 503" eq_refl) as [Hrun _].
  unfold MODELS. rewrite Hrun. reflexivity.
Defined.

(** A first model that answers at once. *)
Lemma first_success_short_circuits_witness :
  network (envFulfilled positivePayload) 0 = Fulfilled positivePayload
  /\ requests (tryModels MODELS "I love this!" (envFulfilled positivePayload) 0) = 1.
Proof.
  split; [reflexivity |].
  destruct (first_success_short_circuits (envFulfilled positivePayload) "I love this!" 0
              "cardiffnlp/twitter-roberta-base-sentiment-latest"
              [ "distilbert-base-uncased-finetuned-sst-2-english";
                "cardiffnlp/twitter-roberta-base-sentiment";
                "nlptown/bert-base-multilingual-uncased-sentiment" ]
              positivePayload eq_refl) as [Hrun _].
  unfold MODELS. rewrite Hrun. reflexivity.
Defined.

(** A run without a token, with a line of input waiting. *)
Lemma missing_token_stops_witness :
  (TOKEN {| TOKEN := None; network := fun _ => Fulfilled positivePayload |} = None
   \/ TOKEN {| TOKEN := None; network := fun _ => Fulfilled positivePayload |}
      = Some EmptyString)
  /\ outcome (program [ "I am happy" ]
                {| TOKEN := None; network := fun _ => Fulfilled positivePayload |} 0)
     = Returned tt.
Proof.
  split; [left; reflexivity |].
  rewrite (missing_token_stops
             {| TOKEN := None; network := fun _ => Fulfilled positivePayload |}
             [ "I am happy" ] 0 (or_introl eq_refl)).
  reflexivity.
Defined.

(** A line of two spaces, then [quit]. *)
Lemma blank_line_reprompts_witness :
  WhiteSpaceOnly "  "
  /\ events (promptLoop [ "  "; "quit" ] envAll500 0) =
       [ Question PROMPT; Stdout "⚠️ Please enter a valid sentence.";
         Question PROMPT; Stdout "👋 Goodbye!" ].
Proof.
  assert (Hspace : In " " JsString.whiteSpace) by (cbn; tauto).
  assert (Hblank : WhiteSpaceOnly "  ")
    by exact (ws_more " " " " Hspace (ws_more " " EmptyString Hspace ws_empty)).
  split; [exact Hblank |].
  rewrite (blank_line_reprompts envAll500 0 "  " [ "quit" ] Hblank).
  reflexivity.
Defined.

(** Two tokens that differ. *)
Lemma token_line_reveals_token_witness :
  Some "hf_aaa" <> Some "hf_bbb"
  /\ stdoutOf (events (program [] {| TOKEN := Some "hf_aaa"; network := fun _ => mentions503 |} 0))
     <> stdoutOf (events (program [] {| TOKEN := Some "hf_bbb"; network := fun _ => mentions503 |} 0)).
Proof.
  assert (Hne : Some "hf_aaa" <> Some "hf_bbb") by discriminate.
  split; [exact Hne |].
  exact (proj2 (token_line_reveals_token (fun _ => mentions503) [] 0
                  (Some "hf_aaa") (Some "hf_bbb") Hne)).
Defined.

(** A token, and no input at all. *)
Lemma trial_analysis_precedes_prompts_witness :
  TOKEN (envFulfilled positivePayload) = Some "hf_token"
  /\ "hf_token" <> EmptyString
  /\ exists before after : list Event,
       events (program [] (envFulfilled positivePayload) 0) =
         (before ++ events (analyzeSentiment "I love this!" (envFulfilled positivePayload) 1)
          ++ after)%list.
Proof.
  assert (Hne : "hf_token" <> EmptyString) by discriminate.
  split; [reflexivity | split; [exact Hne |]].
  destruct (trial_analysis_precedes_prompts (envFulfilled positivePayload) [] 0
              "hf_token" eq_refl Hne) as (before & after & Hrun & _).
  exists before, after. exact Hrun.
Defined.

(* ===================================================================== *)
(** ** The token check, [validateToken] *)
(* ===================================================================== *)

(** X1.  Whatever the network answers, the token check returns [true]
    after exactly one request, a GET of the identity address with the
    token; it prints to the console and does nothing else. *)
Theorem validateToken_always_proceeds env n :
  outcome (validateToken env n) = Returned true
  /\ requests (validateToken env n) = S n
  /\ exists printed : list Event,
       events (validateToken env n) =
         HttpGet WHOAMI (authorization (TOKEN env)) :: printed
       /\ Forall (fun e => exists line, e = Stdout line \/ e = Stderr line) printed.
Proof.
  unfold validateToken. rewrite bind_getToken.
  unfold bind, request. cbn [outcome requests events].
  destruct (network env n) as [data | [[status body] |] message].
  - destruct data; (split; [reflexivity | split; [reflexivity |]]);
      eexists; (split; [reflexivity |]); repeat constructor; eexists; eauto.
  - split; [reflexivity | split; [reflexivity |]].
    eexists; (split; [reflexivity |]); repeat constructor; eexists; eauto.
  - split; [reflexivity | split; [reflexivity |]].
    eexists; (split; [reflexivity |]); repeat constructor; eexists; eauto.
Qed.



(* ===================================================================== *)
(** ** What the probing loop sends, and in which order *)
(* ===================================================================== *)

Lemma postUrls_app (l l' : list Event) :
  postUrls (l ++ l') = (postUrls l ++ postUrls l')%list.
Proof.
  induction l as [| e l IH]; [reflexivity |].
  destruct e; cbn [app postUrls]; rewrite IH; reflexivity.
Qed.

Lemma sleepsOf_app (l l' : list Event) :
  sleepsOf (l ++ l') = (sleepsOf l ++ sleepsOf l')%list.
Proof.
  induction l as [| e l IH]; [reflexivity |].
  destruct e; cbn [app sleepsOf]; rewrite IH; reflexivity.
Qed.

Lemma stdout_sends_nothing (l : list Event) :
  Forall isStdout l -> postUrls l = [] /\ sleepsOf l = [].
Proof.
  induction 1 as [| e l [line ->] _ IH]; [split; reflexivity |].
  exact IH.
Qed.

(** One turn of the loop, by what the network answers. *)
Lemma tryModels_step env text model rest n :
  tryModels (model :: rest) text env n =
    match network env n with
    | Fulfilled data =>
        let r := printResult data env (S n) in
        {| outcome := outcome r;
           requests := requests r;
           events :=
             [ Stdout ("🔍 Trying model: " ++ model);
               HttpPost (API_URL model) (authorization (TOKEN env)) text;
               Stdout ("✅ Success with model: " ++ model);
               Stdout (Json.nl ++ "📊 Sentiment Result for: " ++ Json.quote ++ text ++ Json.quote) ]
             ++ events r |}
    | Rejected response message =>
        if JsString.includes (describe response message) "503" then
          match network env (S n) with
          | Fulfilled data =>
              let r := printRetryResult data env (S (S n)) in
              {| outcome := outcome r;
                 requests := requests r;
                 events :=
                   [ Stdout ("🔍 Trying model: " ++ model);
                     HttpPost (API_URL model) (authorization (TOKEN env)) text;
                     Stdout ("❌ Failed with " ++ model ++ ": " ++ describe response message);
                     Stdout "⏳ Model is loading, waiting 10 seconds...";
                     Sleep 10000;
                     HttpPost (API_URL model) (authorization (TOKEN env)) text;
                     Stdout ("✅ Success with model after retry: " ++ model);
                     Stdout (Json.nl ++ "📊 Sentiment Result for: " ++ Json.quote ++ text ++ Json.quote) ]
                   ++ events r |}
          | Rejected _ _ =>
              let r := tryModels rest text env (S (S n)) in
              {| outcome := outcome r;
                 requests := requests r;
                 events :=
                   [ Stdout ("🔍 Trying model: " ++ model);
                     HttpPost (API_URL model) (authorization (TOKEN env)) text;
                     Stdout ("❌ Failed with " ++ model ++ ": " ++ describe response message);
                     Stdout "⏳ Model is loading, waiting 10 seconds...";
                     Sleep 10000;
                     HttpPost (API_URL model) (authorization (TOKEN env)) text ]
                   ++ events r |}
          end
        else
          let r := tryModels rest text env (S n) in
          {| outcome := outcome r;
             requests := requests r;
             events :=
               [ Stdout ("🔍 Trying model: " ++ model);
                 HttpPost (API_URL model) (authorization (TOKEN env)) text;
                 Stdout ("❌ Failed with " ++ model ++ ": " ++ describe response message) ]
               ++ events r |}
    end.
Proof.
  cbn [tryModels].
  rewrite bind_log, bind_testModel. cbv zeta.
  destruct (network env n) as [data | response message]; cbn [attemptResult].
  - rewrite bind_log, bind_log. reflexivity.
  - rewrite bind_log.
    destruct (JsString.includes (describe response message) "503").
    + rewrite bind_log, bind_sleep, bind_testModel. cbv zeta.
      destruct (network env (S n)) as [data' | response' message']; cbn [attemptResult].
      * rewrite bind_log, bind_log. reflexivity.
      * reflexivity.
    + reflexivity.
Qed.

(** The four ways a turn of the loop can go. *)
Ltac turn env n response message data data' :=
  rewrite tryModels_step;
  destruct (network env n) as [data | response message];
  [ | destruct (JsString.includes (describe response message) "503");
      [ destruct (network env (S n)) as [data' | ? ?] | ] ];
  cbv zeta; cbn [outcome requests events app].

Section ProbingTrace.

Variable env : Env.
Variable text : string.

(** The loop ends after at most two requests per model. *)
Lemma tryModels_requests_range (models : list string) n :
  n <= requests (tryModels models text env n) <= n + 2 * length models.
Proof.
  revert n. induction models as [| model rest IH]; intros n.
  - cbn. lia.
  - turn env n response message data data'; cbn [length].
    + rewrite (proj2 (printResult_quiet data env (S n))). lia.
    + rewrite (proj2 (printRetryResult_quiet data' env (S (S n)))). lia.
    + specialize (IH (S (S n))). lia.
    + specialize (IH (S n)). lia.
Qed.

(** Every event of the loop is a printed line, the exhaustion report, a
    pause of ten seconds, or a POST of the text with the token to a model
    of the list. *)
Lemma tryModels_alphabet (models : list string) n :
  Forall (probeEvent env text models) (events (tryModels models text env n)).
Proof.
  assert (Hout : forall ms line, probeEvent env text ms (Stdout line)).
  { intros ms line. left. eexists. reflexivity. }
  assert (Hpost : forall m ms,
             probeEvent env text (m :: ms)
               (HttpPost (API_URL m) (authorization (TOKEN env)) text)).
  { intros m ms. right; right; right. exists m. split; [apply in_eq | reflexivity]. }
  assert (Hsleep : forall ms, probeEvent env text ms (Sleep 10000)).
  { intros ms. right; right; left. reflexivity. }
  assert (Hquiet : forall ms l, Forall isStdout l -> Forall (probeEvent env text ms) l).
  { intros ms l. apply Forall_impl. intros e He. left. exact He. }
  assert (Hmore : forall m ms l,
             Forall (probeEvent env text ms) l -> Forall (probeEvent env text (m :: ms)) l).
  { intros m ms l. apply Forall_impl.
    intros e [He | [He | [He | (m' & Hin & He)]]].
    - left; exact He.
    - right; left; exact He.
    - right; right; left; exact He.
    - right; right; right. exists m'. split; [apply in_cons; exact Hin | exact He]. }
  revert n. induction models as [| model rest IH]; intros n.
  - cbn [tryModels]. constructor; [right; left; reflexivity | constructor].
  - turn env n response message data data';
      repeat (apply Forall_cons; [first [apply Hout | apply Hpost | apply Hsleep] |]).
    + apply Hquiet, printResult_quiet.
    + apply Hquiet, printRetryResult_quiet.
    + apply Hmore, IH.
    + apply Hmore, IH.
Qed.

Lemma attemptsOf_cons (model : string) (rest : list string) (c : nat) (reps : list nat) :
  attemptsOf (model :: rest) (c :: reps)
  = (List.repeat (API_URL model) c ++ attemptsOf rest reps)%list.
Proof. reflexivity. Qed.

Lemma attemptsOf_nil (models : list string) : attemptsOf models [] = [].
Proof. unfold attemptsOf. rewrite combine_nil. reflexivity. Qed.

Lemma attemptsOf_length (reps : list nat) :
  Forall (fun c => c = 1 \/ c = 2) reps ->
  forall models, length reps <= length models ->
  length reps <= length (attemptsOf models reps).
Proof.
  induction 1 as [| c reps Hc _ IH]; intros models Hlen; [cbn; lia |].
  destruct models as [| model rest]; [cbn in Hlen; lia |].
  rewrite attemptsOf_cons, length_app, repeat_length.
  cbn [length] in *. specialize (IH rest). destruct Hc; lia.
Qed.

(** X3.  The loop contacts the models in the order of the list, skipping
    none: the first, then the second, and so on up to the model where it
    stops, each with one request or two.  Its request count is the number of
    POSTs it sent, and every second request to a model comes after one of its
    ten-second pauses. *)
Theorem models_are_tried_in_order (models : list string) n :
  let r := tryModels models text env n in
  exists reps : list nat,
    length reps <= length models
    /\ Forall (fun c => c = 1 \/ c = 2) reps
    /\ postUrls (events r) = attemptsOf models reps
    /\ requests r = n + length (postUrls (events r))
    /\ sleepsOf (events r)
       = List.repeat 10000%N (length (postUrls (events r)) - length reps).
Proof.
  cbv zeta. revert n. induction models as [| model rest IH]; intros n.
  - exists []. cbn [tryModels logError emit events requests postUrls sleepsOf length].
    rewrite attemptsOf_nil.
    split; [lia | split; [constructor | split; [reflexivity | split; [lia | reflexivity]]]].
  - turn env n response message data data'; cbn [postUrls sleepsOf].
    + destruct (printResult_quiet data env (S n)) as [Hev Hreq].
      destruct (stdout_sends_nothing _ Hev) as [Hposts Hsleeps].
      rewrite Hposts, Hsleeps, Hreq.
      exists [1]. rewrite attemptsOf_cons, attemptsOf_nil. cbn [List.repeat app length].
      split; [lia |]. split; [repeat constructor |].
      split; [reflexivity |]. split; [lia | reflexivity].
    + destruct (printRetryResult_quiet data' env (S (S n))) as [Hev Hreq].
      destruct (stdout_sends_nothing _ Hev) as [Hposts Hsleeps].
      rewrite Hposts, Hsleeps, Hreq.
      exists [2]. rewrite attemptsOf_cons, attemptsOf_nil. cbn [List.repeat app length].
      split; [lia |].
      split; [constructor; [right; reflexivity | constructor] |].
      split; [reflexivity |]. split; [lia | reflexivity].
    + destruct (IH (S (S n))) as (reps & Hlen & Hreps & Hposts & Hreq & Hsleeps).
      pose proof (attemptsOf_length reps Hreps rest Hlen) as Hge.
      exists (2 :: reps). rewrite Hposts, Hreq, Hsleeps, Hposts, attemptsOf_cons.
      cbn [List.repeat app length].
      split; [lia |].
      split; [constructor; [right; reflexivity | exact Hreps] |].
      split; [reflexivity |]. split; [lia |].
      replace (S (S (length (attemptsOf rest reps))) - S (length reps))
        with (S (length (attemptsOf rest reps) - length reps)) by lia.
      reflexivity.
    + destruct (IH (S n)) as (reps & Hlen & Hreps & Hposts & Hreq & Hsleeps).
      exists (1 :: reps). rewrite Hposts, Hreq, Hsleeps, Hposts, attemptsOf_cons.
      cbn [List.repeat app length].
      split; [lia |].
      split; [constructor; [left; reflexivity | exact Hreps] |].
      split; [reflexivity |]. split; [lia | reflexivity].
Qed.

(** X4.  The loop never reads the token check's address, never prompts
    and never writes to the error stream but for the exhaustion message:
    each of its events is a printed line, that message, a pause of exactly
    ten seconds, or a POST that carries the analysed text and the token to
    the address of a model of the list. *)
Theorem probing_does_nothing_else (models : list string) n :
  Forall (fun e =>
            match e with
            | Stdout _ => True
            | Stderr line => line = EXHAUSTED
            | Sleep ms => ms = 10000%N
            | HttpPost url auth inputs =>
                In url (map API_URL models)
                /\ auth = authorization (TOKEN env)
                /\ inputs = text
            | HttpGet _ _ | Question _ | ErrorReport _ => False
            end)
         (events (tryModels models text env n)).
Proof.
  eapply Forall_impl; [| apply tryModels_alphabet].
  intros e [[line ->] | [-> | [-> | (m & Hm & ->)]]].
  - exact I.
  - reflexivity.
  - reflexivity.
  - split; [apply in_map; exact Hm | split; reflexivity].
Qed.

(** X5.  One analysis over [models] costs at most two requests per model
    and pauses at most ten seconds per model; with a model to try it sends
    at least one request. *)
Theorem probing_cost (models : list string) n :
  let r := tryModels models text env n in
  requests r <= n + 2 * length models
  /\ (models <> [] -> n + 1 <= requests r)
  /\ (fold_right N.add 0 (sleepsOf (events r)) <= 10000 * N.of_nat (length models))%N.
Proof.
  cbv zeta. split; [apply tryModels_requests_range |]. split.
  - destruct models as [| model rest]; [intros H; contradiction H; reflexivity |].
    intros _. turn env n response message data data'.
    + rewrite (proj2 (printResult_quiet data env (S n))). lia.
    + rewrite (proj2 (printRetryResult_quiet data' env (S (S n)))). lia.
    + pose proof (tryModels_requests_range rest (S (S n))). lia.
    + pose proof (tryModels_requests_range rest (S n)). lia.
  - revert n. induction models as [| model rest IH]; intros n.
    + cbn. lia.
    + turn env n response message data data'; cbn [sleepsOf fold_right length].
      * rewrite (proj2 (stdout_sends_nothing _ (proj1 (printResult_quiet data env (S n))))).
        cbn [fold_right]. lia.
      * rewrite (proj2 (stdout_sends_nothing _
                          (proj1 (printRetryResult_quiet data' env (S (S n)))))).
        cbn [fold_right]. lia.
      * specialize (IH (S (S n))). lia.
      * specialize (IH (S n)). lia.
Qed.

End ProbingTrace.

(* ===================================================================== *)
(** ** The formatter, lines 57 to 72 and 87 to 95 *)
(* ===================================================================== *)

Lemma includes_absent_prefix (s pat : string) :
  JsString.includes s pat = false -> prefix pat s = false.
Proof.
  destruct s; cbn [JsString.includes]; intros H;
    apply Bool.orb_false_iff in H; exact (proj1 H).
Qed.

(** Without an occurrence of the pattern, [replace] changes nothing. *)
Lemma replace_absent (s pat repl : string) :
  JsString.includes s pat = false -> JsString.replace s pat repl = s.
Proof.
  induction s as [| c s IH]; intros H.
  - cbn [JsString.replace]. rewrite (includes_absent_prefix _ _ H). reflexivity.
  - cbn [JsString.replace]. rewrite (includes_absent_prefix _ _ H).
    cbn [JsString.includes] in H. apply Bool.orb_false_iff in H.
    rewrite (IH (proj2 H)). reflexivity.
Qed.

Lemma includes_from_suffix (c : ascii) (s pat : string) :
  JsString.includes s pat = true -> JsString.includes (String c s) pat = true.
Proof.
  intros H. cbn [JsString.includes]. rewrite H. apply Bool.orb_true_r.
Qed.

(** A text that holds "LABEL_" holds an underscore. *)
Lemma label_prefix_has_underscore (s : string) :
  JsString.includes s "LABEL_" = true -> JsString.includes s "_" = true.
Proof.
  induction s as [| c s IH]; intros H.
  - discriminate H.
  - cbn [JsString.includes] in H. apply Bool.orb_true_iff in H.
    destruct H as [H | H]; [| apply includes_from_suffix, IH, H].
    pose proof (prefix_split _ _ H) as Hsplit.
    set (x := JsString.drop (String.length "LABEL_") (String c s)) in Hsplit.
    rewrite Hsplit. cbn [append].
    do 5 apply includes_from_suffix.
    change (String "_" x) with ("_" ++ x).
    apply includes_app.
Qed.

(** X6.  Neither formatter sends a request or writes anywhere but to
    standard output, whatever the payload. *)
Theorem formatters_only_print (data : Json.value) env n :
  (Forall isStdout (events (printResult data env n))
   /\ requests (printResult data env n) = n)
  /\ (Forall isStdout (events (printRetryResult data env n))
      /\ requests (printRetryResult data env n) = n).
Proof.
  split; [apply printResult_quiet | apply printRetryResult_quiet].
Qed.

(** What [printItem] does, by the label of the element. *)
Lemma printItem_by_label (item : Json.value) env n :
  match stringLabel item with
  | Some l =>
      printItem item env n =
        {| outcome := Returned tt; requests := n;
           events := [ Stdout (itemLine l (property item "score")) ] |}
  | None =>
      exists message,
        printItem item env n =
          {| outcome := Threw (TypeError message); requests := n; events := [] |}
  end.
Proof.
  unfold stringLabel, printItem, formatItem.
  destruct item as [ | b | d | s | items | props ];
    try (eexists; reflexivity).
  destruct (property (Json.Obj props) "label") as [[ | b | d | l | items | props' ] |];
    first [reflexivity | eexists; reflexivity].
Qed.





(** X9.  A label without an underscore is printed as it is, and a label
    that is "LABEL_" followed by such a text is printed without the prefix. *)
Theorem plain_labels_are_kept (l : string) (score : option Json.value) :
  JsString.includes l "_" = false ->
  let shown := " - " ++ l ++ ": "
               ++ JsNumber.toFixed (JsNumber.mul (Json.toNumber score) (JsNumber.ofN false 100)) 2
               ++ "%" in
  itemLine l score = shown /\ itemLine ("LABEL_" ++ l) score = shown.
Proof.
  intros Hplain shown. subst shown. unfold itemLine.
  assert (Hno : JsString.includes l "LABEL_" = false).
  { destruct (JsString.includes l "LABEL_") eqn:H; [| reflexivity].
    apply label_prefix_has_underscore in H. congruence. }
  split.
  - rewrite (replace_absent l "LABEL_" EmptyString Hno).
    rewrite (replace_absent l "_" " " Hplain). reflexivity.
  - assert (Hstrip : JsString.replace ("LABEL_" ++ l) "LABEL_" EmptyString = l).
    { destruct l; reflexivity. }
    rewrite Hstrip, (replace_absent l "_" " " Hplain). reflexivity.
Qed.

Lemma plain_labels_are_kept_witness :
  JsString.includes "5 stars" "_" = false
  /\ itemLine ("LABEL_" ++ "5 stars") (Some (Json.Num (JsNumber.ofDecimal false 5 (-1))))
     = " - 5 stars: 50.00%".
Proof.
  split; [reflexivity |].
  rewrite (proj2 (plain_labels_are_kept "5 stars"
                    (Some (Json.Num (JsNumber.ofDecimal false 5 (-1)))) eq_refl)).
  vm_compute. reflexivity.
Defined.

(** X10.  An object with a string label and no [score] is printed with
    "NaN%" for its score, and one whose score is [null] with "0.00%". *)
Theorem missing_score_prints_NaN (props : list (string * Json.value)) (l : string) env n :
  Json.lookup "label" props = Some (Json.Str l) ->
  (Json.lookup "score" props = None ->
   events (printItem (Json.Obj props) env n) =
     [ Stdout (" - " ++ JsString.replace (JsString.replace l "LABEL_" EmptyString) "_" " "
               ++ ": NaN%") ])
  /\ (Json.lookup "score" props = Some Json.Null ->
      events (printItem (Json.Obj props) env n) =
        [ Stdout (" - " ++ JsString.replace (JsString.replace l "LABEL_" EmptyString) "_" " "
                  ++ ": 0.00%") ]).
Proof.
  intros Hlabel.
  pose proof (printItem_by_label (Json.Obj props) env n) as Hrun.
  unfold stringLabel in Hrun. cbn [property] in Hrun. rewrite Hlabel in Hrun.
  rewrite Hrun. cbn [events]. unfold itemLine.
  split; intros Hscore; rewrite Hscore; reflexivity.
Qed.

Lemma missing_score_prints_NaN_witness :
  Json.lookup "label" [ ("label", Json.Str "LABEL_NEUTRAL") ] = Some (Json.Str "LABEL_NEUTRAL")
  /\ Json.lookup "score" [ ("label", Json.Str "LABEL_NEUTRAL") ] = None
  /\ events (printItem (Json.Obj [ ("label", Json.Str "LABEL_NEUTRAL") ]) envAll500 0)
     = [ Stdout " - NEUTRAL: NaN%" ].
Proof.
  split; [reflexivity | split; [reflexivity |]].
  rewrite (proj1 (missing_score_prints_NaN [ ("label", Json.Str "LABEL_NEUTRAL") ]
                    "LABEL_NEUTRAL" envAll500 0 eq_refl) eq_refl).
  reflexivity.
Defined.

(** X11.  On a payload whose first element is an array the formatter of
    the retry does what the formatter of the first attempt does; on every
    other payload it prints nothing, where the first attempt prints one
    line. *)
Theorem retry_formatter_against_first (data : Json.value) env n :
  match data with
  | Json.Arr (Json.Arr _ :: _) =>
      printRetryResult data env n = printResult data env n
  | _ =>
      printRetryResult data env n =
        {| outcome := Returned tt; requests := n; events := [] |}
      /\ exists line,
           printResult data env n =
             {| outcome := Returned tt; requests := n; events := [ Stdout line ] |}
  end.
Proof.
  destruct data as [ | b | d | s | [| first rest] | props ];
    try (split; [reflexivity | eexists; reflexivity]).
  destruct first; try (split; [reflexivity | eexists; reflexivity]).
  reflexivity.
Qed.

(* ===================================================================== *)
(** ** The prompt loop and the whole run *)
(* ===================================================================== *)

Lemma analyzeSentiment_run (text : string) env n :
  analyzeSentiment text env n =
    {| outcome := outcome (tryModels MODELS text env n);
       requests := requests (tryModels MODELS text env n);
       events := Stdout "🔄 Analyzing sentiment..." :: events (tryModels MODELS text env n) |}.
Proof. unfold analyzeSentiment. apply bind_log. Qed.

(** One turn of the prompt loop, by what the line is. *)
Lemma promptLoop_step (input : string) (rest : list string) env n :
  promptLoop (input :: rest) env n =
    if isCommand input then
      {| outcome := Returned tt; requests := n;
         events := [ Question PROMPT; Stdout "👋 Goodbye!" ] |}
    else if String.eqb (JsString.trim input) EmptyString then
      let r := promptLoop rest env n in
      {| outcome := outcome r; requests := requests r;
         events := Question PROMPT :: Stdout "⚠️ Please enter a valid sentence." :: events r |}
    else
      let a := analyzeSentiment input env n in
      match outcome a with
      | Returned _ =>
          let r := promptLoop rest env (requests a) in
          {| outcome := outcome r; requests := requests r;
             events := Question PROMPT :: events a ++ events r |}
      | Threw e =>
          {| outcome := Threw e; requests := requests a;
             events := Question PROMPT :: events a |}
      | AwaitingInput =>
          {| outcome := AwaitingInput; requests := requests a;
             events := Question PROMPT :: events a |}
      end.
Proof.
  cbn [promptLoop]. rewrite bind_emit. unfold isCommand.
  destruct (String.eqb (JsString.toLowerCase input) "quit"
            || String.eqb (JsString.toLowerCase input) "exit")%bool.
  - reflexivity.
  - destruct (String.eqb (JsString.trim input) EmptyString).
    + rewrite bind_log. reflexivity.
    + rewrite bind_run. cbv zeta.
      destruct (outcome (analyzeSentiment input env n)); reflexivity.
Qed.

(** X12.  A line that is [quit] or [exit] in any mix of cases ends the
    loop with the goodbye line and no request, and no line after it is ever
    read: the run is the same whatever follows it. *)
Theorem nothing_after_quit (before after : list string) (q : string) env n :
  isCommand q = true ->
  promptLoop (q :: after) env n =
    {| outcome := Returned tt; requests := n;
       events := [ Question PROMPT; Stdout "👋 Goodbye!" ] |}
  /\ promptLoop (before ++ q :: after) env n = promptLoop (before ++ [q]) env n.
Proof.
  intros Hq.
  assert (Hend : forall l m,
             promptLoop (q :: l) env m =
               {| outcome := Returned tt; requests := m;
                  events := [ Question PROMPT; Stdout "👋 Goodbye!" ] |}).
  { intros l m. rewrite promptLoop_step, Hq. reflexivity. }
  split; [apply Hend |].
  revert n. induction before as [| input before IH]; intros n; cbn [app].
  - rewrite !Hend. reflexivity.
  - rewrite !promptLoop_step.
    destruct (isCommand input); [reflexivity |].
    destruct (String.eqb (JsString.trim input) EmptyString).
    + cbv zeta. rewrite IH. reflexivity.
    + cbv zeta. destruct (outcome (analyzeSentiment input env n)); [| reflexivity ..].
      rewrite IH. reflexivity.
Qed.

Lemma nothing_after_quit_witness :
  isCommand "QuIt" = true
  /\ promptLoop [ "  "; "QuIt"; "I am happy"; "exit" ] envAll500 0
     = promptLoop [ "  "; "QuIt" ] envAll500 0.
Proof.
  split; [reflexivity |].
  exact (proj2 (nothing_after_quit [ "  " ] [ "I am happy"; "exit" ] "QuIt" envAll500 0 eq_refl)).
Defined.

(** X13.  When the analysis of a line throws (the formatter met an
    element without a string label), the loop ends with that error: the
    lines after it are never read and no further prompt is shown. *)
Theorem failure_ends_the_session (input : string) (rest : list string) env n e :
  isCommand input = false ->
  JsString.trim input <> EmptyString ->
  outcome (analyzeSentiment input env n) = Threw e ->
  promptLoop (input :: rest) env n =
    {| outcome := Threw e;
       requests := requests (analyzeSentiment input env n);
       events := Question PROMPT :: events (analyzeSentiment input env n) |}.
Proof.
  intros Hcmd Htrim Hthrew.
  rewrite promptLoop_step, Hcmd.
  apply String.eqb_neq in Htrim. rewrite Htrim. cbv zeta. rewrite Hthrew. reflexivity.
Qed.

Lemma failure_ends_the_session_witness :
  isCommand "I am happy" = false
  /\ JsString.trim "I am happy" <> EmptyString
  /\ outcome (analyzeSentiment "I am happy"
                (envFulfilled (Json.Arr [ Json.Arr [ Json.Null ] ])) 0)
     = Threw (TypeError "Cannot read properties of null (reading 'label')")
  /\ outcome (promptLoop [ "I am happy"; "I am sad" ]
                (envFulfilled (Json.Arr [ Json.Arr [ Json.Null ] ])) 0)
     = Threw (TypeError "Cannot read properties of null (reading 'label')").
Proof.
  assert (Htrim : JsString.trim "I am happy" <> EmptyString) by (vm_compute; discriminate).
  assert (Hthrew : outcome (analyzeSentiment "I am happy"
                              (envFulfilled (Json.Arr [ Json.Arr [ Json.Null ] ])) 0)
                   = Threw (TypeError "Cannot read properties of null (reading 'label')"))
    by (vm_compute; reflexivity).
  split; [reflexivity | split; [exact Htrim | split; [exact Hthrew |]]].
  rewrite (failure_ends_the_session "I am happy" [ "I am sad" ]
             (envFulfilled (Json.Arr [ Json.Arr [ Json.Null ] ])) 0 _
             eq_refl Htrim Hthrew).
  reflexivity.
Defined.

(** X14.  The run itself never ends with an error: what [main] throws is
    reported by [console.error] as the last event, and the run returns. *)
Theorem program_reports_and_returns (stdin : list string) env n :
  match outcome (main stdin env n) with
  | Threw e =>
      outcome (program stdin env n) = Returned tt
      /\ exists before : list Event,
           events (program stdin env n) = (before ++ [ ErrorReport e ])%list
  | o => outcome (program stdin env n) = o
  end.
Proof.
  unfold program. rewrite bind_getToken, bind_log.
  cbn [outcome events]. unfold onReject.
  destruct (outcome (main stdin env n)) as [[] | e |] eqn:Hout.
  - exact Hout.
  - split; [reflexivity |]. cbn [outcome events emit].
    exists (Stdout ("token: " ++ " " ++ tokenText (TOKEN env)) :: events (main stdin env n)).
    reflexivity.
  - exact Hout.
Qed.

(** X15.  When every model fails for a line, the loop prints the
    exhaustion message and goes on with the next line. *)
Theorem exhaustion_keeps_the_session (input : string) (rest : list string) env n n' k :
  isCommand input = false ->
  JsString.trim input <> EmptyString ->
  AllFail env n MODELS n' k ->
  exists before : list Event,
    promptLoop (input :: rest) env n =
      (let r := promptLoop rest env n' in
       {| outcome := outcome r;
          requests := requests r;
          events :=
            Question PROMPT :: Stdout "🔄 Analyzing sentiment..."
            :: before ++ Stderr EXHAUSTED :: events r |}).
Proof.
  intros Hcmd Htrim Hfail.
  destruct (all_fail_exhausts env input n MODELS n' k Hfail)
    as (Hout & Hreq & _ & before & Hev).
  exists before.
  rewrite promptLoop_step, Hcmd.
  apply String.eqb_neq in Htrim. rewrite Htrim. cbv zeta.
  rewrite analyzeSentiment_run. cbn [outcome requests events].
  rewrite Hout, Hreq, Hev. cbn [app]. rewrite <- app_assoc. reflexivity.
Qed.

Lemma exhaustion_keeps_the_session_witness :
  isCommand "I am happy" = false
  /\ JsString.trim "I am happy" <> EmptyString
  /\ AllFail envAll500 0 MODELS 8 4
  /\ outcome (promptLoop [ "I am happy"; "quit" ] envAll500 0) = Returned tt.
Proof.
  assert (Htrim : JsString.trim "I am happy" <> EmptyString) by (vm_compute; discriminate).
  assert (Hfail : AllFail envAll500 0 MODELS 8 4).
  { unfold MODELS.
    do 4 (eapply allFail_retry; [reflexivity | reflexivity | reflexivity |]).
    apply allFail_done. }
  split; [reflexivity | split; [exact Htrim | split; [exact Hfail |]]].
  destruct (exhaustion_keeps_the_session "I am happy" [ "quit" ] envAll500 0 8 4
              eq_refl Htrim Hfail) as [before Hrun].
  rewrite Hrun. reflexivity.
Defined.

Lemma analyzeSentiment_requests_range (text : string) env n :
  n <= requests (analyzeSentiment text env n) <= n + 8.
Proof.
  rewrite analyzeSentiment_run. cbn [requests].
  pose proof (tryModels_requests_range env text MODELS n) as H.
  change (length MODELS) with 4 in H. lia.
Qed.

Lemma promptLoop_requests_range (stdin : list string) env n :
  n <= requests (promptLoop stdin env n) <= n + 8 * length stdin.
Proof.
  revert n. induction stdin as [| input rest IH]; intros n.
  - cbn. lia.
  - rewrite promptLoop_step. cbn [length].
    destruct (isCommand input); [cbn; lia |].
    destruct (String.eqb (JsString.trim input) EmptyString); cbv zeta.
    + cbn [requests]. specialize (IH n). lia.
    + pose proof (analyzeSentiment_requests_range input env n) as Ha.
      destruct (outcome (analyzeSentiment input env n)); cbn [requests]; try lia.
      specialize (IH (requests (analyzeSentiment input env n))). lia.
Qed.

(** X16.  A whole run sends at most nine requests before the first prompt
    (the token check and one analysis) and at most eight more per line
    typed; without a token it sends none. *)
Theorem run_request_budget (stdin : list string) env n :
  n <= requests (program stdin env n) <= n + 9 + 8 * length stdin
  /\ (truthy (TOKEN env) = false -> requests (program stdin env n) = n).
Proof.
  assert (Hsame : requests (program stdin env n) = requests (main stdin env n)).
  { unfold program. rewrite bind_getToken, bind_log. cbn [requests].
    unfold onReject. destruct (outcome (main stdin env n)); reflexivity. }
  rewrite Hsame. clear Hsame.
  destruct (truthy (TOKEN env)) eqn:Htoken.
  - split; [| discriminate].
    destruct (main_with_token stdin env n Htoken) as (printed & _ & Hmain).
    rewrite Hmain. cbv zeta. cbn [requests].
    pose proof (analyzeSentiment_requests_range "I love this!" env (S n)) as Ha.
    destruct (outcome (analyzeSentiment "I love this!" env (S n))); cbn [requests]; try lia.
    pose proof (promptLoop_requests_range stdin env
                  (requests (analyzeSentiment "I love this!" env (S n)))) as Hl.
    lia.
  - assert (Hnone : requests (main stdin env n) = n).
    { unfold main. rewrite bind_log, bind_log, bind_getToken, Htoken. reflexivity. }
    rewrite Hnone. split; [lia | reflexivity].
Qed.

Lemma validateToken_sends env n :
  Forall (sentToHuggingFace env) (events (validateToken env n)).
Proof.
  unfold validateToken. rewrite bind_getToken.
  unfold bind, request. cbn [outcome requests events].
  destruct (network env n) as [data | [[status body] |] message];
    [destruct data | |];
    cbn; repeat (constructor; [first [exact I | split; reflexivity] |]); constructor.
Qed.

Lemma analyzeSentiment_sends (text : string) env n :
  Forall (sentToHuggingFace env) (events (analyzeSentiment text env n)).
Proof.
  rewrite analyzeSentiment_run. cbn [events]. constructor; [exact I |].
  eapply Forall_impl; [| apply tryModels_alphabet].
  intros e [[line ->] | [-> | [-> | (m & Hm & ->)]]]; try exact I.
  split; [apply in_map; exact Hm | reflexivity].
Qed.

Lemma promptLoop_sends (stdin : list string) env n :
  Forall (sentToHuggingFace env) (events (promptLoop stdin env n)).
Proof.
  revert n. induction stdin as [| input rest IH]; intros n.
  - cbn. repeat constructor.
  - rewrite promptLoop_step.
    destruct (isCommand input); [repeat constructor |].
    destruct (String.eqb (JsString.trim input) EmptyString); cbv zeta.
    + cbn [events]. repeat (constructor; [exact I |]). apply IH.
    + pose proof (analyzeSentiment_sends input env n) as Ha.
      destruct (outcome (analyzeSentiment input env n)); cbn [events];
        (constructor; [exact I |]); try exact Ha.
      apply Forall_app. split; [exact Ha | apply IH].
Qed.

(** X17.  Every request of a run goes to Hugging Face with the token of
    the environment: the only GET reads the identity address, and every POST
    goes to the inference address of one of the four models. *)
Theorem requests_go_to_hugging_face (stdin : list string) env n :
  Forall (sentToHuggingFace env) (events (program stdin env n)).
Proof.
  rewrite program_events. constructor; [exact I |].
  apply Forall_app. split; [| destruct (outcome (main stdin env n)); repeat constructor].
  unfold main. rewrite bind_log, bind_log, bind_getToken.
  cbn [events]. constructor; [exact I |]. constructor; [exact I |].
  destruct (truthy (TOKEN env)); cbn [negb].
  - rewrite bind_log. cbn [events]. constructor; [exact I |].
    rewrite bind_run.
    pose proof (validateToken_sends env n) as Hv.
    destruct (validateToken_run env n) as (printed & Hrun & _).
    rewrite Hrun in *. cbn [outcome requests events negb] in *.
    apply Forall_app. split; [exact Hv |].
    rewrite bind_log. cbn [events]. constructor; [exact I |].
    rewrite bind_run.
    pose proof (analyzeSentiment_sends "I love this!" env (S n)) as Ha.
    destruct (outcome (analyzeSentiment "I love this!" env (S n))); cbn [events];
      try exact Ha.
    apply Forall_app. split; [exact Ha | apply promptLoop_sends].
  - cbn. repeat constructor.
Qed.

(** X18.  A rejection whose description does not hold "503" is not
    retried: after its one request the loop goes on with the next models. *)
Theorem failure_without_503_moves_on env text n model rest response message :
  network env n = Rejected response message ->
  JsString.includes (describe response message) "503" = false ->
  let r := tryModels rest text env (S n) in
  tryModels (model :: rest) text env n =
    {| outcome := outcome r;
       requests := requests r;
       events :=
         [ Stdout ("🔍 Trying model: " ++ model);
           HttpPost (API_URL model) (authorization (TOKEN env)) text;
           Stdout ("❌ Failed with " ++ model ++ ": " ++ describe response message) ]
         ++ events r |}.
Proof.
  intros Hnet Hno r. rewrite tryModels_step, Hnet, Hno. reflexivity.
Qed.

Lemma failure_without_503_moves_on_witness :
  network {| TOKEN := Some "hf_token";
             network := fun _ => Rejected None "timeout of 30000ms exceeded" |} 0
    = Rejected None "timeout of 30000ms exceeded"
  /\ JsString.includes (describe None "timeout of 30000ms exceeded") "503" = false
  /\ requests (tryModels MODELS "I am happy"
                 {| TOKEN := Some "hf_token";
                    network := fun _ => Rejected None "timeout of 30000ms exceeded" |} 0)
     = 4.
Proof.
  split; [reflexivity | split; [reflexivity |]].
  unfold MODELS.
  rewrite (failure_without_503_moves_on
             {| TOKEN := Some "hf_token";
                network := fun _ => Rejected None "timeout of 30000ms exceeded" |}
             "I am happy" 0 _ _ None "timeout of 30000ms exceeded" eq_refl eq_refl).
  vm_compute. reflexivity.
Defined.

(** X19.  When every model fails, the call returns after the exhaustion
    message, having sent one request per model and one more for each model
    whose first rejection was described with "503". *)
Theorem exhaustion_request_count env text n models n' k :
  AllFail env n models n' k ->
  let r := tryModels models text env n in
  outcome r = Returned tt
  /\ requests r = n + length models + k
  /\ exists before : list Event, events r = (before ++ [ Stderr EXHAUSTED ])%list.
Proof.
  intros Hfail r.
  destruct (all_fail_exhausts env text n models n' k Hfail) as (Hout & Hreq & Hcount & Hev).
  fold r in Hout, Hreq, Hev.
  split; [exact Hout | split; [congruence | exact Hev]].
Qed.

Lemma exhaustion_request_count_witness :
  AllFail envAll500 0 MODELS 8 4
  /\ requests (tryModels MODELS "I am happy" envAll500 0) = 0 + length MODELS + 4.
Proof.
  assert (Hfail : AllFail envAll500 0 MODELS 8 4).
  { unfold MODELS.
    do 4 (eapply allFail_retry; [reflexivity | reflexivity | reflexivity |]).
    apply allFail_done. }
  split; [exact Hfail |].
  exact (proj1 (proj2 (exhaustion_request_count envAll500 "I am happy" 0 MODELS 8 4 Hfail))).
Defined.


